(** * School attendance backend: the document store, the schemas and the
    request handlers of [main.py] and [schemas.py], with the properties of
    the specification stated over them. *)

From Stdlib Require Import ZArith NArith Ascii String List Lia.
From Stdlib Require Import Floats.SpecFloat.
From stdpp Require Import base option list strings gmap fin_maps.

Local Open Scope string_scope.
#[local] Set Warnings "-clear-no-such-hyp".

(** ** Calendar dates ([datetime.date]) *)

Module PyDate.

Record date := mk_date { year : N; month : N; day : N }.

#[global] Instance date_eq_dec : EqDecision date.
Proof. solve_decision. Defined.

(** [date] objects order by year, then month, then day. *)
Definition compare (a b : date) : comparison :=
  match N.compare (year a) (year b) with
  | Eq => match N.compare (month a) (month b) with
          | Eq => N.compare (day a) (day b)
          | c => c
          end
  | c => c
  end.

Definition leb (a b : date) : bool :=
  match compare a b with Gt => false | _ => true end.

Definition ltb (a b : date) : bool :=
  match compare a b with Lt => true | _ => false end.

Definition is_leap (y : N) : bool :=
  ((y mod 4 =? 0) && negb (y mod 100 =? 0) || (y mod 400 =? 0))%N.

Definition days_in_month (y m : N) : N :=
  match m with
  | 2%N => if is_leap y then 29 else 28
  | 4%N | 6%N | 9%N | 11%N => 30
  | _ => 31
  end.

(** The dates the [date] constructor accepts. *)
Definition valid (d : date) : bool :=
  ((1 <=? year d) && (year d <=? 9999) &&
   (1 <=? month d) && (month d <=? 12) &&
   (1 <=? day d) && (day d <=? days_in_month (year d) (month d)))%N.

Definition digit (n : N) : ascii := ascii_of_N (48 + n mod 10).

(** [str(d)], the ISO form [YYYY-MM-DD]. *)
Definition str (d : date) : string :=
  String (digit (year d / 1000)) (String (digit (year d / 100))
  (String (digit (year d / 10)) (String (digit (year d))
  (String "-" (String (digit (month d / 10)) (String (digit (month d))
  (String "-" (String (digit (day d / 10)) (String (digit (day d))
  EmptyString))))))))).

Definition digit_val (c : ascii) : option N :=
  let n := N_of_ascii c in
  if ((48 <=? n) && (n <=? 57))%N then Some (n - 48)%N else None.

Definition num2 (a b : ascii) : option N :=
  x ← digit_val a; y ← digit_val b; Some (10 * x + y)%N.

Definition num4 (a b c d : ascii) : option N :=
  x ← num2 a b; y ← num2 c d; Some (100 * x + y)%N.

(** Reading a date from its ISO text, as the request layer does for a
    [date] field or query parameter. *)
Definition parse (s : string) : option date :=
  match s with
  | String y1 (String y2 (String y3 (String y4 (String "-"
    (String m1 (String m2 (String "-" (String d1 (String d2
    EmptyString))))))))) =>
      y ← num4 y1 y2 y3 y4; m ← num2 m1 m2; d ← num2 d1 d2;
      let r := mk_date y m d in
      if valid r then Some r else None
  | _ => None
  end.

End PyDate.

Abbreviation date := PyDate.date.

(** ** Object identifiers ([bson.ObjectId]) *)

Module Oid.

(** An identifier is twelve bytes, kept as the number they spell. *)
Definition t := N.

Definition hex_digit (n : N) : ascii :=
  let d := (n mod 16)%N in
  if (d <? 10)%N then ascii_of_N (48 + d) else ascii_of_N (87 + d).

Fixpoint hex (width : nat) (n : N) (acc : string) : string :=
  match width with
  | O => acc
  | S w => hex w (n / 16)%N (String (hex_digit n) acc)
  end.

(** [str(oid)]: twenty-four lower-case hexadecimal digits. *)
Definition str (o : t) : string := hex 24 o EmptyString.

Definition hex_val (c : ascii) : option N :=
  let n := N_of_ascii c in
  if ((48 <=? n) && (n <=? 57))%N then Some (n - 48)%N
  else if ((97 <=? n) && (n <=? 102))%N then Some (n - 87)%N
  else if ((65 <=? n) && (n <=? 70))%N then Some (n - 55)%N
  else None.

Fixpoint unhex (s : string) (acc : N) : option N :=
  match s with
  | EmptyString => Some acc
  | String c s' => v ← hex_val c; unhex s' (16 * acc + v)%N
  end.

(** [ObjectId(s)] for a text [s]: [None] stands for [InvalidId], raised
    unless [s] is twenty-four hexadecimal digits. *)
Definition of_string (s : string) : option t :=
  if Nat.eqb (String.length s) 24 then unhex s 0%N else None.

End Oid.

(** ** Stored values and documents *)

#[global] Instance spec_float_eq_dec : EqDecision spec_float.
Proof. solve_decision. Defined.

(** The scalars a document field holds. *)
Inductive value :=
| VNull
| VBool (b : bool)
| VStr (s : string)
| VFloat (f : spec_float)
| VDate (d : date)
| VObjectId (o : Oid.t).

#[global] Instance value_eq_dec : EqDecision value.
Proof. solve_decision. Defined.

(** A document, and a Python [dict] of field values, is a finite map from
    field names. *)
Abbreviation doc := (gmap string value).

(** ** The document store

    The handlers reach the store through the object [db] of the [database]
    module. A collection is the sequence of its documents in insertion
    order (the store-native order); the operations below are the ones the
    handlers call on [db[name]]: [find], [find_one], [insert_one],
    [update_one] with [$set] and [$setOnInsert], [delete_one] and
    [delete_many]. A calendar date is stored and compared as a date. *)

(** A query condition on one field: a value to equal, or a dictionary of
    comparison operators ([$gte], [$lte]). *)
Inductive cond :=
| CEq (v : value)
| COps (ops : gmap string value).

Abbreviation filter := (gmap string cond).

(** Ordering of stored values, defined inside one type only: a comparison
    across types never matches. *)
Definition value_leb (a b : value) : bool :=
  match a, b with
  | VDate x, VDate y => PyDate.leb x y
  | VFloat x, VFloat y => SFleb x y
  | VStr x, VStr y => String.leb x y
  | _, _ => false
  end.

Definition op_holds (op : string) (bound w : value) : bool :=
  if decide (op = "$gte") then value_leb bound w
  else if decide (op = "$lte") then value_leb w bound
  else false.

Definition cond_holds (c : cond) (field : option value) : bool :=
  match c, field with
  | CEq v, Some w => bool_decide (w = v)
  | CEq v, None => bool_decide (v = VNull)
  | COps ops, Some w =>
      negb (bool_decide (ops = ∅))
      && forallb (λ kv, op_holds kv.1 kv.2 w) (map_to_list ops)
  | COps ops, None => false
  end.

(** A document matches a filter when every field condition holds: the
    conditions combine by conjunction, and the empty filter matches all. *)
Definition matches (f : filter) (d : doc) : bool :=
  forallb (λ kc, cond_holds kc.2 (d !! kc.1)) (map_to_list f).

Definition find (f : filter) (c : list doc) : list doc :=
  List.filter (matches f) c.

Definition find_one (f : filter) (c : list doc) : option doc :=
  head (find f c).

Fixpoint delete_first (f : filter) (c : list doc) : list doc :=
  match c with
  | [] => []
  | d :: c' => if matches f d then c' else d :: delete_first f c'
  end.

Definition delete_all (f : filter) (c : list doc) : list doc :=
  List.filter (λ d, negb (matches f d)) c.

(** [$set]: the given fields replace or extend those of the document. *)
Fixpoint update_first (f : filter) (st : doc) (c : list doc) : list doc :=
  match c with
  | [] => []
  | d :: c' => if matches f d then (st ∪ d) :: c' else d :: update_first f st c'
  end.

Record update := mk_update { upd_set : doc; upd_setOnInsert : doc }.

(** The fields an upsert takes from the equality conditions of its filter. *)
Definition eq_fields (f : filter) : doc :=
  omap (λ c, match c with CEq v => Some v | COps _ => None end) f.

(** Modelled from the spec: the store object [db] of the [database] module,
    which is not among the sources: named collections of documents, and
    the source of the identifiers the store generates. *)
Record Store := mk_store {
  colls : gmap string (list doc);
  next_oid : Oid.t
}.

Definition empty_store : Store := mk_store ∅ 0%N.

(** [db[name]]: a collection never written to is empty. *)
Definition coll (s : Store) (name : string) : list doc :=
  default [] (colls s !! name).

(** A new document gets a generated [_id] unless it brings one. *)
Definition with_id (o : Oid.t) (d : doc) : doc :=
  match d !! "_id" with
  | Some _ => d
  | None => <["_id" := VObjectId o]> d
  end.

Definition doc_id (o : Oid.t) (d : doc) : value :=
  default (VObjectId o) (d !! "_id").

(** [insert_one]: returns [inserted_id]. *)
Definition insert_one (name : string) (d : doc) (s : Store) : value * Store :=
  (doc_id (next_oid s) d,
   mk_store (<[name := (coll s name ++ [with_id (next_oid s) d])%list]> (colls s))
            (next_oid s + 1)%N).

(** [delete_one]: returns [deleted_count]. *)
Definition delete_one (name : string) (f : filter) (s : Store) : nat * Store :=
  (if existsb (matches f) (coll s name) then 1 else 0,
   mk_store (alter (delete_first f) name (colls s)) (next_oid s)).

Definition delete_many (name : string) (f : filter) (s : Store) : nat * Store :=
  (length (find f (coll s name)),
   mk_store (alter (delete_all f) name (colls s)) (next_oid s)).

(** [update_one]: returns [matched_count]. With [upsert] and no match, a
    document is inserted that carries the filter's equality fields, the
    [$set] fields and the [$setOnInsert] fields. *)
Definition update_one (name : string) (f : filter) (u : update)
    (upsert : bool) (s : Store) : nat * Store :=
  if existsb (matches f) (coll s name) then
    (1, mk_store (alter (update_first f (upd_set u)) name (colls s)) (next_oid s))
  else if upsert then
    (0, (insert_one name (upd_set u ∪ upd_setOnInsert u ∪ eq_fields f) s).2)
  else (0, s).

(** ** Request bodies and the schemas of [schemas.py] *)

(** A JSON scalar of a request body; a number is the binary64 value it
    reads as. *)
Inductive json :=
| JNull
| JBool (b : bool)
| JNum (f : spec_float)
| JStr (s : string).

Abbreviation body := (gmap string json).

(** Field readers of the validation layer: a required [str], [float] or
    [date] field, and an [Optional] field that defaults to [None]. A field
    that is absent or of another type fails validation. *)
Definition field_str (b : body) (k : string) : option string :=
  match b !! k with Some (JStr s) => Some s | _ => None end.

Definition field_float (b : body) (k : string) : option spec_float :=
  match b !! k with Some (JNum f) => Some f | _ => None end.

Definition field_date (b : body) (k : string) : option date :=
  match b !! k with Some (JStr s) => PyDate.parse s | _ => None end.

Definition field_opt_str (b : body) (k : string) : option (option string) :=
  match b !! k with
  | None | Some JNull => Some None
  | Some (JStr s) => Some (Some s)
  | _ => None
  end.

Definition field_opt_date (b : body) (k : string) : option (option date) :=
  match b !! k with
  | None | Some JNull => Some None
  | Some (JStr s) => Some <$> PyDate.parse s
  | _ => None
  end.

Definition opt_value {A} (f : A → value) (o : option A) : value :=
  match o with Some a => f a | None => VNull end.

Module Student.
Record t := mk { name : string; className : string }.

Definition validate (b : body) : option t :=
  n ← field_str b "name"; c ← field_str b "className"; Some (mk n c).

Definition model_dump (p : t) : doc :=
  <["name" := VStr (name p)]> (<["className" := VStr (className p)]> ∅).
End Student.

Module Attendance.
Record t := mk { student_id : string; date : PyDate.date; status : string }.

Definition validate (b : body) : option t :=
  s ← field_str b "student_id"; d ← field_date b "date";
  st ← field_str b "status"; Some (mk s d st).

Definition model_dump (p : t) : doc :=
  <["student_id" := VStr (student_id p)]>
    (<["date" := VDate (date p)]> (<["status" := VStr (status p)]> ∅)).
End Attendance.

Module Agenda.
Record t := mk { title : string; date : PyDate.date; note : option string }.

Definition validate (b : body) : option t :=
  ti ← field_str b "title"; d ← field_date b "date";
  n ← field_opt_str b "note"; Some (mk ti d n).

Definition model_dump (p : t) : doc :=
  <["title" := VStr (title p)]>
    (<["date" := VDate (date p)]> (<["note" := opt_value VStr (note p)]> ∅)).
End Agenda.

Module Grade.
Record t := mk {
  student_id : string;
  subject : string;
  score : spec_float;
  date : option PyDate.date
}.

Definition zero : spec_float := S754_zero false.
(** 100 as a binary64 value: 7036874417766400 * 2^-46. *)
Definition hundred : spec_float := S754_finite false 7036874417766400 (-46).

(** [Field(..., ge=0, le=100)]. *)
Definition score_ok (x : spec_float) : bool := SFleb zero x && SFleb x hundred.

Definition validate (b : body) : option t :=
  s ← field_str b "student_id"; su ← field_str b "subject";
  sc ← field_float b "score"; d ← field_opt_date b "date";
  if score_ok sc then Some (mk s su sc d) else None.

Definition model_dump (p : t) : doc :=
  <["student_id" := VStr (student_id p)]>
    (<["subject" := VStr (subject p)]>
      (<["score" := VFloat (score p)]>
        (<["date" := opt_value VDate (date p)]> ∅))).
End Grade.

Module AdminUser.
Record t := mk { username : string; password : string; is_active : bool }.
End AdminUser.

Module LoginRequest.
Record t := mk { username : string; password : string }.

Definition validate (b : body) : option t :=
  u ← field_str b "username"; p ← field_str b "password"; Some (mk u p).
End LoginRequest.

Module LoginResponse.
Record t := mk { token : string }.
End LoginResponse.

(** ** The process state and the handler monad *)

(** The two module-level objects of [main.py]: the store [db] ([None] when
    no connection was configured) and the [SESSIONS] set. *)
Record World := mk_world {
  db : option Store;
  SESSIONS : gset string
}.

Inductive exn :=
| HTTPException (status_code : nat) (detail : string)
| RequestValidationError
| InvalidId
| StoreUnavailable
| TypeError.


Inductive outcome (A : Type) :=
| Return (a : A)
| Raise (e : exn).
Arguments Return {A} a.
Arguments Raise {A} e.

(** A handler reads and writes the world and returns or raises; what it
    wrote before raising stays written. *)
Definition M (A : Type) : Type := World → outcome A * World.

#[global] Instance M_ret : MRet M := λ A a w, (Return a, w).

#[global] Instance M_bind : MBind M := λ A B k m w,
  match m w with
  | (Return a, w') => k a w'
  | (Raise e, w') => (Raise e, w')
  end.

#[global] Instance M_fmap : FMap M := λ A B f m w,
  match m w with
  | (Return a, w') => (Return (f a), w')
  | (Raise e, w') => (Raise e, w')
  end.

Definition raise {A} (e : exn) : M A := λ w, (Raise e, w).

Definition get_db : M (option Store) := λ w, (Return (db w), w).

(** One call on the store object; [db[name]] on [None] is a [TypeError]. *)
Definition on_db {A} (op : Store → A * Store) : M A := λ w,
  match db w with
  | Some s => let r := op s in (Return r.1, mk_world (Some r.2) (SESSIONS w))
  | None => (Raise TypeError, w)
  end.

Definition read_db {A} (q : Store → A) : M A := on_db (λ s, (q s, s)).

(** [ObjectId(s)]. *)
Definition ObjectId (s : string) : M Oid.t :=
  match Oid.of_string s with
  | Some o => mret o
  | None => raise InvalidId
  end.

(** Truth value of an [Optional[str]]: [None] and the empty text are false. *)
Definition truthy_str (o : option string) : bool :=
  match o with Some s => negb (String.eqb s "") | None => false end.

(** Truth value of an [Optional[date]]: every [date] object is true. *)
Definition truthy_date (o : option date) : bool :=
  match o with Some _ => true | None => false end.

(** ** [main.py] *)

(** [repr] of a [float] is the one piece of the Python runtime the handlers
    reach that is left abstract. *)
Class PyRuntime := { float_repr : spec_float → string }.

#[global] Instance value_inhabited : Inhabited value := populate VNull.

Record Response := mk_Response {
  content : string;
  media_type : string;
  headers : list (string * string)
}.

Module csv.

Definition quotechar : ascii := "034"%char.
Definition delimiter : ascii := ","%char.
Definition CR : ascii := "013"%char.
Definition LF : ascii := "010"%char.
Definition lineterminator : string := String CR (String LF EmptyString).

Definition special (c : ascii) : bool :=
  Ascii.eqb c delimiter || Ascii.eqb c quotechar
  || Ascii.eqb c CR || Ascii.eqb c LF.

Fixpoint needs_quotes (s : string) : bool :=
  match s with
  | EmptyString => false
  | String c s' => special c || needs_quotes s'
  end.

(** Inside quotes a quote character is doubled. *)
Fixpoint escape (s : string) : string :=
  match s with
  | EmptyString => EmptyString
  | String c s' =>
      if Ascii.eqb c quotechar then String c (String c (escape s'))
      else String c (escape s')
  end.

(** One field under the default dialect ([QUOTE_MINIMAL]). *)
Definition field (s : string) : string :=
  if needs_quotes s
  then String quotechar (escape s +:+ String quotechar EmptyString)
  else s.

Fixpoint join (fs : list string) : string :=
  match fs with
  | [] => EmptyString
  | [f] => f
  | f :: fs' => f +:+ String delimiter (join fs')
  end.

(** The text [writer.writerow(row)] appends, for a row of two or more
    fields already turned to text. *)
Definition row_text (fs : list string) : string :=
  join (field <$> fs) +:+ lineterminator.

End csv.

Section Handlers.
Context `{!PyRuntime}.

(** [str(v)]. *)
Definition py_str (v : value) : string :=
  match v with
  | VNull => "None"
  | VBool b => if b then "True" else "False"
  | VStr s => s
  | VFloat f => float_repr f
  | VDate d => PyDate.str d
  | VObjectId o => Oid.str o
  end.

(** [d.get(k)]: [None] for a missing key. *)
Definition py_get (d : doc) (k : string) : value := default VNull (d !! k).

(** The text the csv writer makes of a cell: empty for [None], the text
    itself for a [str], [str(v)] otherwise. *)
Definition csv_cell (v : value) : string :=
  match v with
  | VNull => ""
  | VStr s => s
  | _ => py_str v
  end.

Definition writerow (row : list value) (output : string) : string :=
  output +:+ csv.row_text (csv_cell <$> row).

(** Modelled from the spec: [create_document] of the [database] module,
    which is not among the sources: it inserts the record's field values
    into the named collection and returns the generated identifier as
    text, and fails when there is no store connection. *)
Definition create_document (collection_name : string) (data : doc) : M string :=
  d ← get_db;
  if d is None then raise StoreUnavailable else
  inserted_id ← on_db (insert_one collection_name data);
  mret (py_str inserted_id).

(** Modelled from the spec: [get_documents] of the [database] module,
    which is not among the sources: all documents of the named collection
    that match the filter, in store order, and the empty sequence when
    there is no store connection. *)
Definition get_documents (collection_name : string) (filter_dict : filter)
    : M (list doc) :=
  d ← get_db;
  if d is None then mret [] else
  read_db (λ s, find filter_dict (coll s collection_name)).

Definition serialize (doc : gmap string value) : gmap string value :=
  if bool_decide (doc = ∅) then doc
  else
    let d := doc in
    if d !! "_id" is Some v then <["_id" := VStr (py_str v)]> d else d.

Definition db_unavailable {A} : M A :=
  raise (HTTPException 500 "Database not available").

(** *** Students *)

Definition create_student (payload : Student.t) : M doc :=
  _id ← create_document "student" (Student.model_dump payload);
  mret {["_id" := VStr _id]}.

Definition list_students : M (list doc) :=
  docs ← get_documents "student" ∅;
  mret (serialize <$> docs).

Definition update_student (student_id : string) (payload : Student.t) : M doc :=
  d ← get_db;
  if d is None then db_unavailable else
  oid ← ObjectId student_id;
  matched_count ← on_db (update_one "student" {["_id" := CEq (VObjectId oid)]}
                           (mk_update (Student.model_dump payload) ∅) false);
  if Nat.eqb matched_count 0
  then raise (HTTPException 404 "Student not found")
  else mret {["updated" := VBool true]}.

Definition delete_student (student_id : string) : M doc :=
  d ← get_db;
  if d is None then db_unavailable else
  _ ← on_db (delete_many "attendance" {["student_id" := CEq (VStr student_id)]});
  _ ← on_db (delete_many "grade" {["student_id" := CEq (VStr student_id)]});
  oid ← ObjectId student_id;
  deleted_count ← on_db (delete_one "student" {["_id" := CEq (VObjectId oid)]});
  if Nat.eqb deleted_count 0
  then raise (HTTPException 404 "Student not found")
  else mret {["deleted" := VBool true]}.

(** *** Attendance *)

Definition attendance_key (data : doc) : filter :=
  <["student_id" := CEq (data !!! "student_id")]>
    (<["date" := CEq (data !!! "date")]> ∅).

Definition mark_attendance (payload : Attendance.t) : M (option doc) :=
  d ← get_db;
  if d is None then db_unavailable else
  let data := Attendance.model_dump payload in
  _ ← on_db (update_one "attendance" (attendance_key data)
               (mk_update data {["created_at" := VNull]}) true);
  doc ← read_db (λ s, find_one (attendance_key data) (coll s "attendance"));
  mret (serialize <$> doc).

(** The [rng] dictionary both attendance queries build. *)
Definition date_range (start_date end_date : option date) : gmap string value :=
  let rng : gmap string value := ∅ in
  let rng := if start_date is Some s then <["$gte" := VDate s]> rng else rng in
  let rng := if end_date is Some e then <["$lte" := VDate e]> rng else rng in
  rng.

Definition list_attendance (student_id : option string)
    (on_date start_date end_date : option date) : M (list doc) :=
  let filt : filter := ∅ in
  let filt := if truthy_str student_id
              then <["student_id" := CEq (VStr (default "" student_id))]> filt
              else filt in
  let filt := if on_date is Some od then <["date" := CEq (VDate od)]> filt
              else filt in
  let filt := if truthy_date start_date || truthy_date end_date
              then <["date" := COps (date_range start_date end_date)]> filt
              else filt in
  d ← get_db;
  (* [... if db else []]: a store object counts as true *)
  docs ← (if d is Some _
          then read_db (λ s, find filt (coll s "attendance"))
          else mret []);
  mret (serialize <$> docs).

Definition csv_header : list value :=
  [VStr "_id"; VStr "student_id"; VStr "date"; VStr "status"].

Definition csv_record (r : doc) : list value :=
  [VStr (py_str (py_get r "_id")); py_get r "student_id";
   VStr (py_str (py_get r "date")); py_get r "status"].

Definition export_attendance_csv (start_date end_date : option date)
    : M Response :=
  d ← get_db;
  if d is None then db_unavailable else
  let filt : filter := ∅ in
  let filt := if truthy_date start_date || truthy_date end_date
              then <["date" := COps (date_range start_date end_date)]> filt
              else filt in
  rows ← read_db (λ s, find filt (coll s "attendance"));
  let output := writerow csv_header "" in
  let output := foldl (λ out r, writerow (csv_record r) out) output rows in
  mret (mk_Response output "text/csv"
          [("Content-Disposition", "attachment; filename=attendance.csv")]).

Definition delete_attendance (attendance_id : string) : M doc :=
  d ← get_db;
  if d is None then db_unavailable else
  oid ← ObjectId attendance_id;
  deleted_count ← on_db (delete_one "attendance" {["_id" := CEq (VObjectId oid)]});
  if Nat.eqb deleted_count 0
  then raise (HTTPException 404 "Attendance not found")
  else mret {["deleted" := VBool true]}.

(** *** Agendas *)

Definition create_agenda (payload : Agenda.t) : M doc :=
  _id ← create_document "agenda" (Agenda.model_dump payload);
  mret {["_id" := VStr _id]}.

Definition list_agendas : M (list doc) :=
  docs ← get_documents "agenda" ∅;
  mret (serialize <$> docs).

Definition update_agenda (agenda_id : string) (payload : Agenda.t) : M doc :=
  d ← get_db;
  if d is None then db_unavailable else
  oid ← ObjectId agenda_id;
  matched_count ← on_db (update_one "agenda" {["_id" := CEq (VObjectId oid)]}
                           (mk_update (Agenda.model_dump payload) ∅) false);
  if Nat.eqb matched_count 0
  then raise (HTTPException 404 "Agenda not found")
  else mret {["updated" := VBool true]}.

Definition delete_agenda (agenda_id : string) : M doc :=
  d ← get_db;
  if d is None then db_unavailable else
  oid ← ObjectId agenda_id;
  deleted_count ← on_db (delete_one "agenda" {["_id" := CEq (VObjectId oid)]});
  if Nat.eqb deleted_count 0
  then raise (HTTPException 404 "Agenda not found")
  else mret {["deleted" := VBool true]}.

(** *** Grades *)

Definition add_grade (payload : Grade.t) : M doc :=
  _id ← create_document "grade" (Grade.model_dump payload);
  mret {["_id" := VStr _id]}.

Definition list_grades (student_id : option string) : M (list doc) :=
  let filt : filter :=
    if truthy_str student_id
    then {["student_id" := CEq (VStr (default "" student_id))]}
    else ∅ in
  docs ← get_documents "grade" filt;
  mret (serialize <$> docs).

Definition delete_grade (grade_id : string) : M doc :=
  d ← get_db;
  if d is None then db_unavailable else
  oid ← ObjectId grade_id;
  deleted_count ← on_db (delete_one "grade" {["_id" := CEq (VObjectId oid)]});
  if Nat.eqb deleted_count 0
  then raise (HTTPException 404 "Grade not found")
  else mret {["deleted" := VBool true]}.

(** *** Login *)

Definition add_session (token : string) : M unit := λ w,
  (Return (), mk_world (db w) ({[token]} ∪ SESSIONS w)).

Definition login (req : LoginRequest.t) : M LoginResponse.t :=
  if negb (truthy_str (Some (LoginRequest.username req)))
     || negb (truthy_str (Some (LoginRequest.password req)))
  then raise (HTTPException 400 "Username and password required")
  else
    let token := "token-" +:+ LoginRequest.username req in
    _ ← add_session token;
    mret (LoginResponse.mk token).

(** *** Routing

    The framework validates the body of a request against the schema of
    the handler's [payload] parameter before it calls the handler, and
    answers 422 without calling it when validation fails. *)

Inductive request :=
| POST_students (b : body)
| GET_students
| PUT_students (student_id : string) (b : body)
| DELETE_students (student_id : string)
| POST_attendance (b : body)
| GET_attendance (student_id : option string)
    (on_date start_date end_date : option date)
| GET_attendance_export (start_date end_date : option date)
| DELETE_attendance (attendance_id : string)
| POST_agendas (b : body)
| GET_agendas
| PUT_agendas (agenda_id : string) (b : body)
| DELETE_agendas (agenda_id : string)
| POST_grades (b : body)
| GET_grades (student_id : option string)
| DELETE_grades (grade_id : string)
| POST_login (b : body).

Inductive reply :=
| RObject (d : doc)
| RArray (l : list doc)
| ROptional (o : option doc)
| RFile (r : Response)
| RToken (t : LoginResponse.t).

Definition validated {T A} (validate : body → option T) (b : body)
    (handler : T → M A) : M A :=
  match validate b with
  | Some payload => handler payload
  | None => raise RequestValidationError
  end.

Definition handle (r : request) : M reply :=
  match r with
  | POST_students b => RObject <$> validated Student.validate b create_student
  | GET_students => RArray <$> list_students
  | PUT_students i b =>
      RObject <$> validated Student.validate b (update_student i)
  | DELETE_students i => RObject <$> delete_student i
  | POST_attendance b =>
      ROptional <$> validated Attendance.validate b mark_attendance
  | GET_attendance s o a e => RArray <$> list_attendance s o a e
  | GET_attendance_export a e => RFile <$> export_attendance_csv a e
  | DELETE_attendance i => RObject <$> delete_attendance i
  | POST_agendas b => RObject <$> validated Agenda.validate b create_agenda
  | GET_agendas => RArray <$> list_agendas
  | PUT_agendas i b => RObject <$> validated Agenda.validate b (update_agenda i)
  | DELETE_agendas i => RObject <$> delete_agenda i
  | POST_grades b => RObject <$> validated Grade.validate b add_grade
  | GET_grades s => RArray <$> list_grades s
  | DELETE_grades i => RObject <$> delete_grade i
  | POST_login b => RToken <$> validated LoginRequest.validate b login
  end.

(** The worlds a process passes through: it starts with an empty
    [SESSIONS] set and a store that is absent or empty, and serves
    requests one after the other. *)
Inductive reachable : World → Prop :=
| reachable_no_store : reachable (mk_world None ∅)
| reachable_empty : reachable (mk_world (Some empty_store) ∅)
| reachable_step w r : reachable w → reachable (handle r w).2.

End Handlers.

(** A runtime for running the handlers on concrete requests; no document
    of the examples holds a float. *)
Definition example_runtime : PyRuntime := {| float_repr := λ _, "nan" |}.


(** ** Vocabulary of the stated properties *)

Inductive entity := EStudent | EAgenda | EGrade | EAttendance.

Definition collection_of (e : entity) : string :=
  match e with
  | EStudent => "student"
  | EAgenda => "agenda"
  | EGrade => "grade"
  | EAttendance => "attendance"
  end.

Definition delete_request (e : entity) (id : string) : request :=
  match e with
  | EStudent => DELETE_students id
  | EAgenda => DELETE_agendas id
  | EGrade => DELETE_grades id
  | EAttendance => DELETE_attendance id
  end.

Definition not_found (e : entity) : exn :=
  HTTPException 404
    match e with
    | EStudent => "Student not found"
    | EAgenda => "Agenda not found"
    | EGrade => "Grade not found"
    | EAttendance => "Attendance not found"
    end.

(** No document of the collection has the identifier [o]. *)
Definition no_record (o : Oid.t) (c : list doc) : Prop :=
  Forall (λ d, d !! "_id" ≠ Some (VObjectId o)) c.

(** No document of the collection names [id] as its student. *)
Definition no_reference (id : string) (c : list doc) : Prop :=
  Forall (λ d, d !! "student_id" ≠ Some (VStr id)) c.

(** The store of a world, empty when there is none. *)
Definition store_of (w : World) : Store := default empty_store (db w).

(** The world after a handler ran, and what it answered. *)
Definition after {A} (m : M A) (w : World) : World := (m w).2.
Definition answer {A} (m : M A) (w : World) : outcome A := (m w).1.

(** A score below 0, above 100, or not a number. *)
Definition score_outside (x : spec_float) : Prop :=
  SFltb x Grade.zero = true ∨ SFltb Grade.hundred x = true ∨ x = S754_nan.

(** A score equal to 0 or to 100. *)
Definition score_at_bound (x : spec_float) : Prop :=
  SFeqb x Grade.zero = true ∨ SFeqb x Grade.hundred = true.




(** The document is of the student asked for, when one is asked for. *)
Definition of_student (student_id : option string) (d : doc) : Prop :=
  ∀ x, student_id = Some x → x ≠ "" → d !! "student_id" = Some (VStr x).

(** The filter [list_attendance] builds, as a function of its arguments. *)
Definition attendance_filter (student_id : option string)
    (on_date start_date end_date : option date) : filter :=
  let filt : filter := ∅ in
  let filt := if truthy_str student_id
              then <["student_id" := CEq (VStr (default "" student_id))]> filt
              else filt in
  let filt := if on_date is Some od then <["date" := CEq (VDate od)]> filt
              else filt in
  let filt := if truthy_date start_date || truthy_date end_date
              then <["date" := COps (date_range start_date end_date)]> filt
              else filt in
  filt.



Definition header_line : string := "_id,student_id,date,status" +:+ csv.lineterminator.


(** The line of a record whose cells need no quoting. *)
Definition plain_line (id student on status : string) : string :=
  id +:+ "," +:+ student +:+ "," +:+ on +:+ "," +:+ status +:+ csv.lineterminator.

(** [u] occurs in [s]. *)
Definition contains (s u : string) : Prop := ∃ pre post, s = pre +:+ u +:+ post.


Definition csv_headers : list (string * string) :=
  [("Content-Disposition", "attachment; filename=attendance.csv")].

(** The document is the attendance record of the student on the date. *)
Definition is_for (student_id : string) (on : date) (d : doc) : bool :=
  bool_decide (d !! "student_id" = Some (VStr student_id)
               ∧ d !! "date" = Some (VDate on)).

(** The key of an attendance record. *)
Definition att_key (d : doc) : option value * option value :=
  (d !! "student_id", d !! "date").

Definition created_at (d : doc) : option value := d !! "created_at".


(** The update document of [mark_attendance]. *)
Definition mark_update (p : Attendance.t) : update :=
  mk_update (Attendance.model_dump p) {["created_at" := VNull]}.

Definition mark_key (p : Attendance.t) : filter :=
  attendance_key (Attendance.model_dump p).




(** ** Vocabulary of the further properties *)

(** Requests that list or export. *)
Definition is_read (r : request) : bool :=
  match r with
  | GET_students | GET_attendance _ _ _ _ | GET_attendance_export _ _
  | GET_agendas | GET_grades _ => true
  | _ => false
  end.


Definition is_login (r : request) : bool :=
  match r with POST_login _ => true | _ => false end.

Definition is_delete_student (r : request) : bool :=
  match r with DELETE_students _ => true | _ => false end.


(** The document names [id] as its student. *)
Definition references (id : string) (d : doc) : bool :=
  bool_decide (d !! "student_id" = Some (VStr id)).

(** The document has the identifier [o]. *)
Definition has_id (o : Oid.t) (d : doc) : bool :=
  bool_decide (d !! "_id" = Some (VObjectId o)).

(** [c'] is [c] without its first document of identifier [o]. *)
Definition removed_one (o : Oid.t) (c c' : list doc) : Prop :=
  ∃ pre d post,
    c = (pre ++ d :: post)%list ∧ c' = (pre ++ post)%list
    ∧ has_id o d = true ∧ Forall (λ x, has_id o x = false) pre.

(** [c'] is [c] with the fields [data] set in its first document of
    identifier [o]. *)
Definition updated_one (o : Oid.t) (data : doc) (c c' : list doc) : Prop :=
  ∃ pre d post,
    c = (pre ++ d :: post)%list ∧ c' = (pre ++ (data ∪ d) :: post)%list
    ∧ has_id o d = true ∧ Forall (λ x, has_id o x = false) pre.

(** The identifiers of a collection. *)
Definition ids_of (c : list doc) : list (option value) :=
  (λ d : doc, d !! "_id") <$> c.

(** A list of identifiers, all generated below [n] and no two the same. *)
Definition ids_ok (n : Oid.t) (l : list (option value)) : Prop :=
  NoDup l ∧ Forall (λ i, ∃ o, i = Some (VObjectId o) ∧ (o < n)%N) l.

(** Every document of the store carries an identifier the store generated,
    and no two documents of a collection carry the same. *)
Definition ids_inv (s : Store) : Prop :=
  ∀ name, ids_ok (next_oid s) (ids_of (coll s name)).

(** A handler keeps a property of the store. *)
Definition keeps {A} (I : Store → Prop) (m : M A) : Prop :=
  ∀ w, I (store_of w) → I (store_of (m w).2).

Definition op_keeps {A} (I : Store → Prop) (op : Store → A * Store) : Prop :=
  ∀ s, I s → I (op s).2.


(** An attendance record as [mark_attendance] writes it: a text student,
    a date, a text status and a null [created_at]. *)
Definition well_formed_mark (d : doc) : Prop :=
  ∃ sid t st,
    d !! "student_id" = Some (VStr sid) ∧ d !! "date" = Some (VDate t)
    ∧ d !! "status" = Some (VStr st) ∧ d !! "created_at" = Some VNull.

Definition shape_inv (s : Store) : Prop :=
  Forall well_formed_mark (coll s "attendance").

(** ** Sample requests and worlds *)

Module Sample.

Definition run (rs : list request) (w : World) : World :=
  foldl (λ w r, after (@handle example_runtime r) w) w rs.

Definition fresh : World := mk_world (Some empty_store) ∅.

Definition id1 : string := "64b7f0000000000000000001".
Definition id2 : string := "64b7f0000000000000000002".
Definition unused_id : string := "ffffffffffffffffffffffff".

Definition attendance_body (student_id on status : string) : body :=
  <["student_id" := JStr student_id]>
    (<["date" := JStr on]> (<["status" := JStr status]> ∅)).

Definition student_body (name className : string) : body :=
  <["name" := JStr name]> (<["className" := JStr className]> ∅).

(** One attendance mark for a student identifier that no student has. *)
Definition orphan_mark : World :=
  run [POST_attendance (attendance_body id1 "2024-01-01" "Hadir")] fresh.

(** A student, and marks for two other student identifiers. *)
Definition school : World :=
  run [POST_students (student_body "Ana" "5A");
       POST_attendance (attendance_body id1 "2024-01-01" "Hadir");
       POST_attendance (attendance_body id1 "2024-01-31" "Sakit");
       POST_attendance (attendance_body id1 "2024-02-01" "Izin");
       POST_attendance (attendance_body id2 "2024-01-15" "Alfa")] fresh.

Definition grade_body (student_id subject : string) (score : spec_float) : body :=
  <["student_id" := JStr student_id]>
    (<["subject" := JStr subject]> (<["score" := JNum score]> ∅)).

(** 150 as a binary64 value: 5277655813324800 * 2^-45. *)
Definition f150 : spec_float := S754_finite false 5277655813324800 (-45).

Definition too_high : body := grade_body id1 "Math" f150.
Definition full_marks : body := grade_body id1 "Math" Grade.hundred.
Definition no_marks : body := grade_body id1 "Math" Grade.zero.

(** A Student body whose name is the empty string. *)
Definition nameless : body := student_body "" "5A".

Definition jan01 : date := PyDate.mk_date 2024 1 1.
Definition jan31 : date := PyDate.mk_date 2024 1 31.
Definition feb01 : date := PyDate.mk_date 2024 2 1.

(** The dates of the documents of an answer. *)
Definition dates_of (o : outcome (list doc)) : list (option value) :=
  match o with
  | Return l => (λ d : doc, d !! "date") <$> l
  | Raise _ => []
  end.

Definition agenda_body (title on : string) : body :=
  <["title" := JStr title]> (<["date" := JStr on]> ∅).

(** The identifiers the store generates first. *)
Definition gen0 : string := "000000000000000000000000".
Definition gen1 : string := "000000000000000000000001".
Definition gen2 : string := "000000000000000000000002".

(** A student, with a mark and a grade that name the student's generated
    identifier, a mark of another student, and an agenda. *)
Definition enrolled : World :=
  run [POST_students (student_body "Ana" "5A");
       POST_attendance (attendance_body gen0 "2024-01-01" "Hadir");
       POST_grades (grade_body gen0 "Math" Grade.hundred);
       POST_attendance (attendance_body id1 "2024-01-01" "Sakit");
       POST_agendas (agenda_body "Exam" "2024-03-01")] fresh.

Definition gen4 : string := "000000000000000000000004".


Definition izin_0102 : Attendance.t :=
  Attendance.mk id1 (PyDate.mk_date 2024 1 2) "Izin".

End Sample.
(** ** Sample evaluations *)

Example str_date_ex : PyDate.str (PyDate.mk_date 2024 1 31) = "2024-01-31".
Proof. reflexivity. Qed.

Example parse_date_ex :
  PyDate.parse "2024-02-29" = Some (PyDate.mk_date 2024 2 29)
  ∧ PyDate.parse "2023-02-29" = None.
Proof. split; reflexivity. Qed.

Example oid_str_ex :
  Oid.of_string "64B7f0000000000000000001" = Some 31170867775079872726300622849%N
  ∧ Oid.str 31170867775079872726300622849%N = "64b7f0000000000000000001".
Proof. split; vm_compute; reflexivity. Qed.

(** ** Facts about filters and collections *)

#[global] Arguments insert_one : simpl never.
#[global] Arguments delete_one : simpl never.
#[global] Arguments delete_many : simpl never.
#[global] Arguments update_one : simpl never.
#[global] Arguments find : simpl never.
#[global] Arguments find_one : simpl never.
#[global] Arguments matches : simpl never.
#[global] Arguments coll : simpl never.

Section StoreFacts.

Lemma matches_spec (f : filter) (d : doc) :
  matches f d = true ↔ ∀ k c, f !! k = Some c → cond_holds c (d !! k) = true.
Proof.
  unfold matches. rewrite forallb_forall. split.
  - intros H k c Hk. apply (H (k, c)).
    apply list_elem_of_In, elem_of_map_to_list, Hk.
  - intros H [k c] Hin. apply H.
    apply list_elem_of_In, elem_of_map_to_list in Hin. exact Hin.
Qed.

Lemma matches_empty (d : doc) : matches ∅ d = true.
Proof. apply matches_spec. intros k c Hk. by rewrite lookup_empty in Hk. Qed.

Lemma matches_singleton (k : string) (c : cond) (d : doc) :
  matches {[k := c]} d = cond_holds c (d !! k).
Proof.
  unfold matches. rewrite map_to_list_singleton. simpl. apply andb_true_r.
Qed.

Lemma matches_singleton_insert (k : string) (c : cond) (d : doc) :
  matches (<[k := c]> ∅) d = cond_holds c (d !! k).
Proof. rewrite insert_empty. apply matches_singleton. Qed.

Lemma matches_eq_field (k : string) (v : value) (d : doc) :
  v ≠ VNull → matches {[k := CEq v]} d = true ↔ d !! k = Some v.
Proof.
  intros Hv. rewrite matches_singleton. simpl.
  destruct (d !! k) as [x|]; rewrite bool_decide_eq_true; naive_solver.
Qed.

Lemma find_all (c : list doc) : find ∅ c = c.
Proof.
  unfold find. induction c as [|d c IH]; simpl; [done|].
  by rewrite matches_empty, IH.
Qed.

Lemma existsb_false {A} (p : A → bool) (l : list A) :
  existsb p l = false ↔ Forall (λ x, p x = false) l.
Proof.
  induction l as [|x l IH]; simpl.
  - split; [constructor | done].
  - rewrite orb_false_iff, IH, Forall_cons. done.
Qed.

Lemma delete_first_none (f : filter) (c : list doc) :
  Forall (λ d, matches f d = false) c → delete_first f c = c.
Proof.
  induction 1 as [|d c Hd _ IH]; simpl; [done|]. by rewrite Hd, IH.
Qed.

Lemma delete_all_none (f : filter) (c : list doc) :
  Forall (λ d, matches f d = false) c → delete_all f c = c.
Proof.
  unfold delete_all.
  induction 1 as [|d c Hd _ IH]; simpl; [done|]. by rewrite Hd, IH.
Qed.

Lemma find_none (f : filter) (c : list doc) :
  Forall (λ d, matches f d = false) c → find f c = [].
Proof.
  unfold find. induction 1 as [|d c Hd _ IH]; simpl; [done|]. by rewrite Hd.
Qed.

Lemma alter_coll_id (g : list doc → list doc) (name : string) (s : Store) :
  g (coll s name) = coll s name →
  mk_store (alter g name (colls s)) (next_oid s) = s.
Proof.
  intros Hg. destruct s as [cs n]. simpl. f_equal.
  apply alter_id. intros x Hx. unfold coll in Hg. simpl in Hg.
  by rewrite Hx in Hg.
Qed.

Lemma delete_one_none (name : string) (f : filter) (s : Store) :
  Forall (λ d, matches f d = false) (coll s name) →
  delete_one name f s = (0, s).
Proof.
  intros H. unfold delete_one.
  rewrite (proj2 (existsb_false _ _) H).
  by rewrite alter_coll_id by by apply delete_first_none.
Qed.

Lemma delete_many_none (name : string) (f : filter) (s : Store) :
  Forall (λ d, matches f d = false) (coll s name) →
  delete_many name f s = (0, s).
Proof.
  intros H. unfold delete_many.
  rewrite find_none by done.
  by rewrite alter_coll_id by by apply delete_all_none.
Qed.

(** What each store operation leaves in each collection. *)

Lemma coll_alter (g : list doc → list doc) (name name' : string)
    (cs : gmap string (list doc)) (n : Oid.t) :
  g [] = [] →
  coll (mk_store (alter g name cs) n) name'
  = if decide (name' = name) then g (coll (mk_store cs n) name)
    else coll (mk_store cs n) name'.
Proof.
  intros Hg. unfold coll. simpl. case_decide as Hn.
  - subst. rewrite lookup_alter_eq. by destruct (cs !! name).
  - by rewrite lookup_alter_ne.
Qed.

Lemma coll_delete_one (name : string) (f : filter) (s : Store) (name' : string) :
  coll (delete_one name f s).2 name'
  = if decide (name' = name) then delete_first f (coll s name)
    else coll s name'.
Proof. destruct s. unfold delete_one. simpl. by rewrite coll_alter. Qed.

Lemma coll_delete_many (name : string) (f : filter) (s : Store) (name' : string) :
  coll (delete_many name f s).2 name'
  = if decide (name' = name) then delete_all f (coll s name)
    else coll s name'.
Proof. destruct s. unfold delete_many. simpl. by rewrite coll_alter. Qed.

Lemma coll_insert_one (name : string) (d : doc) (s : Store) (name' : string) :
  coll (insert_one name d s).2 name'
  = if decide (name' = name)
    then (coll s name ++ [with_id (next_oid s) d])%list
    else coll s name'.
Proof.
  unfold insert_one, coll. simpl. case_decide as Hn.
  - subst. by rewrite lookup_insert_eq.
  - by rewrite lookup_insert_ne.
Qed.

Lemma coll_update_one (name : string) (f : filter) (u : update)
    (upsert : bool) (s : Store) (name' : string) :
  coll (update_one name f u upsert s).2 name'
  = if decide (name' = name) then
      if existsb (matches f) (coll s name)
      then update_first f (upd_set u) (coll s name)
      else if upsert
           then (coll s name ++
                 [with_id (next_oid s)
                    (upd_set u ∪ upd_setOnInsert u ∪ eq_fields f)])%list
           else coll s name
    else coll s name'.
Proof.
  unfold update_one. destruct (existsb _ _) eqn:E.
  - destruct s. simpl. by rewrite coll_alter.
  - destruct upsert; simpl.
    + apply coll_insert_one.
    + by case_decide; subst.
Qed.

Lemma coll_alter_insert (name : string) (c : list doc)
    (cs : gmap string (list doc)) (n : Oid.t) :
  coll (mk_store (<[name := c]> cs) n) name = c.
Proof. unfold coll. simpl. by rewrite lookup_insert_eq. Qed.

Lemma delete_one_count (name : string) (f : filter) (s : Store) :
  (delete_one name f s).1 = if existsb (matches f) (coll s name) then 1 else 0.
Proof. done. Qed.

Lemma update_one_count (name : string) (f : filter) (u : update)
    (upsert : bool) (s : Store) :
  (update_one name f u upsert s).1
  = if existsb (matches f) (coll s name) then 1 else 0.
Proof.
  unfold update_one. destruct (existsb _ _); [done|]. by destruct upsert.
Qed.

End StoreFacts.


(** ** Running the handler monad *)

Section Running.

Lemma fmap_run {A B} (f : A → B) (m : M A) (w : World) :
  (f <$> m) w
  = match m w with
    | (Return a, w') => (Return (f a), w')
    | (Raise e, w') => (Raise e, w')
    end.
Proof. reflexivity. Qed.

Lemma bind_run {A B} (m : M A) (k : A → M B) (w : World) :
  (m ≫= k) w
  = match m w with
    | (Return a, w') => k a w'
    | (Raise e, w') => (Raise e, w')
    end.
Proof. reflexivity. Qed.

Lemma on_db_run {A} (op : Store → A * Store) (s : Store) (S : gset string) :
  on_db op (mk_world (Some s) S)
  = (Return (op s).1, mk_world (Some (op s).2) S).
Proof. reflexivity. Qed.

Lemma read_db_run {A} (q : Store → A) (s : Store) (S : gset string) :
  read_db q (mk_world (Some s) S) = (Return (q s), mk_world (Some s) S).
Proof. reflexivity. Qed.

End Running.

(** ** Deleting by an identifier that matches nothing *)

Section DeleteMissing.
Context `{!PyRuntime}.
#[local] Opaque delete_one delete_many.

Lemma no_record_unmatched (o : Oid.t) (c : list doc) :
  no_record o c →
  Forall (λ d, matches {["_id" := CEq (VObjectId o)]} d = false) c.
Proof.
  intros Hc. eapply Forall_impl; [exact Hc|]. intros d Hd.
  apply not_true_is_false. by rewrite matches_eq_field.
Qed.

Lemma no_reference_unmatched (id : string) (c : list doc) :
  no_reference id c →
  Forall (λ d, matches {["student_id" := CEq (VStr id)]} d = false) c.
Proof.
  intros Hc. eapply Forall_impl; [exact Hc|]. intros d Hd.
  apply not_true_is_false. by rewrite matches_eq_field.
Qed.

(** A malformed identifier is reported as [InvalidId], a server error,
    by the three handlers that only delete by identifier. *)
Lemma delete_malformed_id (e : entity) (w : World) (s : Store) (id : string) :
  e ≠ EStudent → db w = Some s → Oid.of_string id = None →
  handle (delete_request e id) w = (Raise InvalidId, w).
Proof.
  intros He Hdb Hid. destruct w as [d S]. simpl in Hdb. subst d.
  destruct e; [done| | |]; simpl;
    unfold fmap, M_fmap, delete_agenda, delete_grade, delete_attendance,
      mbind, M_bind, get_db, ObjectId; simpl; by rewrite Hid.
Qed.

(** Deleting a student answers 404 whenever no student has the
    identifier, whatever the cascade removed before. *)
Lemma delete_student_not_found (w : World) (s : Store) (id : string) (o : Oid.t) :
  db w = Some s → Oid.of_string id = Some o →
  no_record o (coll s "student") →
  answer (delete_student id) w = Raise (not_found EStudent).
Proof.
  intros Hdb Hid Hno. destruct w as [d S]. simpl in Hdb. subst d.
  unfold answer, delete_student, mbind, M_bind, get_db, on_db, ObjectId. simpl.
  rewrite Hid. simpl.
  rewrite delete_one_count, !coll_delete_many. simpl.
  by rewrite (proj2 (existsb_false _ _) (no_record_unmatched _ _ Hno)).
Qed.

(** C1 (as amended): for a well-formed identifier that matches no stored
    record of the entity, DELETE answers 404 and leaves the whole world,
    hence every collection, as it was; for Student this is stated for the
    case that no attendance or grade record names the identifier as its
    student. *)
Theorem delete_missing_id_not_found (e : entity) (w : World) (s : Store)
    (id : string) (o : Oid.t) :
  db w = Some s →
  Oid.of_string id = Some o →
  no_record o (coll s (collection_of e)) →
  (e = EStudent →
     no_reference id (coll s "attendance") ∧ no_reference id (coll s "grade")) →
  handle (delete_request e id) w = (Raise (not_found e), w).
Proof.
  intros Hdb Hid Hno Href. destruct w as [d S]. simpl in Hdb. subst d.
  apply no_record_unmatched in Hno.
  destruct e; simpl in *;
    unfold fmap, M_fmap, delete_student, delete_agenda, delete_grade,
      delete_attendance, mbind, M_bind, get_db, on_db, ObjectId; simpl.
  - destruct (Href eq_refl) as [Ha Hg].
    apply no_reference_unmatched in Ha, Hg.
    rewrite (delete_many_none "attendance") by done. simpl.
    rewrite (delete_many_none "grade") by done. simpl.
    rewrite Hid. simpl. by rewrite delete_one_none.
  - rewrite Hid. simpl. by rewrite delete_one_none.
  - rewrite Hid. simpl. by rewrite delete_one_none.
  - rewrite Hid. simpl. by rewrite delete_one_none.
Qed.

End DeleteMissing.

(** ** Validation of request bodies *)

Section Validation.
Context `{!PyRuntime}.
#[local] Opaque insert_one.

Lemma SFcompare_antisym (a b : spec_float) :
  SFcompare b a = CompOpp <$> SFcompare a b.
Proof.
  destruct a as [sa|sa| |sa ma ea], b as [sb|sb| |sb mb eb]; simpl;
    try destruct sa; try destruct sb; try reflexivity;
    rewrite (Z.compare_antisym ea eb);
    destruct (ea ?= eb)%Z; simpl; try reflexivity;
    pose proof (Pos.compare_antisym ma mb) as Hm; unfold Pos.compare in Hm;
    rewrite Hm; by destruct (Pos.compare_cont Eq ma mb).
Qed.

Lemma SFltb_not_SFleb (a b : spec_float) :
  SFltb a b = true → SFleb b a = false.
Proof.
  unfold SFltb, SFleb. rewrite (SFcompare_antisym a b).
  by destruct (SFcompare a b) as [[]|].
Qed.

Lemma SFeqb_SFleb (a b : spec_float) :
  SFeqb a b = true → SFleb a b = true ∧ SFleb b a = true.
Proof.
  unfold SFeqb, SFleb. rewrite (SFcompare_antisym a b).
  by destruct (SFcompare a b) as [[]|].
Qed.

Lemma score_outside_rejected (x : spec_float) :
  score_outside x → Grade.score_ok x = false.
Proof.
  unfold Grade.score_ok. intros [Hlo|[Hhi| ->]].
  - by rewrite (SFltb_not_SFleb _ _ Hlo).
  - rewrite (SFltb_not_SFleb _ _ Hhi). apply andb_false_r.
  - reflexivity.
Qed.

Lemma score_at_bound_accepted (x : spec_float) :
  score_at_bound x → Grade.score_ok x = true.
Proof.
  unfold Grade.score_ok. intros [H0|H100].
  - destruct (SFeqb_SFleb _ _ H0) as [_ ->].
    destruct x as [[]|[]| |[] m e]; simpl in H0; done.
  - destruct (SFeqb_SFleb _ _ H100) as [-> _].
    destruct x as [[]|[]| |[] m e]; simpl in H100; done.
Qed.

Lemma create_document_run (name : string) (data : doc) (w : World) :
  create_document name data w
  = match db w with
    | Some s =>
        (Return (py_str (insert_one name data s).1),
         mk_world (Some (insert_one name data s).2) (SESSIONS w))
    | None => (Raise StoreUnavailable, w)
    end.
Proof.
  destruct w as [[s|] S]; reflexivity.
Qed.

(** C2 (as amended): the body of a Student create request is validated
    against a shape in which [name] and [className] are required text, the
    empty string included. A body in which either is missing or not text is
    rejected with a validation error (422) and nothing is written; a body
    in which both are text, empty or not, is inserted into the student
    collection when there is a store. *)
Theorem create_student_validation (b : body) (w : World) :
  match b !! "name", b !! "className" with
  | Some (JStr n), Some (JStr c) =>
      match db w with
      | Some s =>
          let d := Student.model_dump (Student.mk n c) in
          handle (POST_students b) w
          = (Return (RObject {["_id" := VStr (Oid.str (next_oid s))]}),
             mk_world (Some (insert_one "student" d s).2) (SESSIONS w))
          ∧ coll (insert_one "student" d s).2 "student"
            = (coll s "student" ++ [<["_id" := VObjectId (next_oid s)]> d])%list
      | None => handle (POST_students b) w = (Raise StoreUnavailable, w)
      end
  | _, _ => handle (POST_students b) w = (Raise RequestValidationError, w)
  end.
Proof.
  unfold handle, validated, Student.validate, field_str.
  destruct (b !! "name") as [[| | |n]|]; try reflexivity;
    destruct (b !! "className") as [[| | |c]|]; try reflexivity.
  simpl. unfold create_student.
  rewrite fmap_run, bind_run, create_document_run.
  destruct (db w) as [s|]; [|reflexivity].
  split; [reflexivity|]. rewrite coll_insert_one. by case_decide.
Qed.

(** C6: a Grade body whose score is outside [0,100] is rejected with a
    validation error and the world, hence the store, is untouched; a body
    whose score equals 0 or 100, with its other fields well-formed, passes
    validation and reaches [add_grade]. *)
Theorem grade_score_validated (b : body) (w : World) (x : spec_float) :
  b !! "score" = Some (JNum x) →
  (score_outside x →
     handle (POST_grades b) w = (Raise RequestValidationError, w))
  ∧ (score_at_bound x →
     ∀ s su d,
       field_str b "student_id" = Some s →
       field_str b "subject" = Some su →
       field_opt_date b "date" = Some d →
       Grade.validate b = Some (Grade.mk s su x d)
       ∧ handle (POST_grades b) w
         = (RObject <$> add_grade (Grade.mk s su x d)) w).
Proof.
  intros Hx. split.
  - intros Hout%score_outside_rejected.
    unfold handle, validated, Grade.validate, field_float.
    rewrite Hx. simpl. rewrite Hout.
    destruct (field_str b "student_id"); simpl; [|done].
    destruct (field_str b "subject"); simpl; [|done].
    by destruct (field_opt_date b "date").
  - intros Hin%score_at_bound_accepted s su d Hs Hsu Hd.
    assert (Hv : Grade.validate b = Some (Grade.mk s su x d)).
    { unfold Grade.validate, field_float.
      rewrite Hs, Hsu, Hx, Hd. simpl. by rewrite Hin. }
    split; [exact Hv|]. unfold handle, validated. by rewrite Hv.
Qed.

End Validation.

(** ** Listing attendance and grades *)

Section Queries.
Context `{!PyRuntime}.





Lemma matches_insert (k : string) (c : cond) (f : filter) (d : doc) :
  f !! k = None →
  matches (<[k := c]> f) d = cond_holds c (d !! k) && matches f d.
Proof.
  intros Hk. apply eq_true_iff_eq.
  rewrite andb_true_iff, !matches_spec. split.
  - intros H1. split.
    + apply (H1 k c). by rewrite lookup_insert_eq.
    + intros k' c' Hk'. apply H1. rewrite lookup_insert_ne; [done|].
      intros ->. by rewrite Hk in Hk'.
  - intros [H1 H2] k' c'. rewrite lookup_insert. case_decide as E.
    + intros [= <-]. by subst.
    + apply H2.
Qed.




Lemma student_cond_spec (sid : option string) (d : doc) :
  (if truthy_str sid
   then cond_holds (CEq (VStr (default "" sid))) (d !! "student_id")
   else true) = true
  ↔ of_student sid d.
Proof.
  unfold of_student. destruct sid as [x|]; simpl; [|naive_solver].
  destruct (String.eqb_spec x "") as [->|Hx]; simpl; [naive_solver|].
  destruct (d !! "student_id") as [v|]; simpl.
  - rewrite bool_decide_eq_true.
    split; [intros -> y [= <-]; done | intros H1; by injection (H1 x eq_refl Hx)].
  - split; [done | intros H1; by specialize (H1 x eq_refl Hx)].
Qed.

Lemma list_attendance_run sid od a e (w : World) :
  list_attendance sid od a e w
  = (Return (serialize <$>
       match db w with
       | Some s => find (attendance_filter sid od a e) (coll s "attendance")
       | None => []
       end), w).
Proof. destruct w as [[s|] S]; reflexivity. Qed.







End Queries.

(** ** Login *)

Section Login.
Context `{!PyRuntime}.

Lemma append_nil_r (s : string) : s +:+ "" = s.
Proof.
  induction s as [|c s IH]; [done|].
  change (String c (s +:+ "") = String c s). by f_equal.
Qed.




Lemma truthy_str_spec (s : string) : truthy_str (Some s) = false ↔ s = "".
Proof.
  simpl. destruct (String.eqb_spec s ""); simpl; split; done.
Qed.

(** C8: a login with an empty username or an empty password fails with
    400 and leaves the world as it was; any other login returns, and
    records in [SESSIONS], a token that contains the username and is a
    function of the username alone, so that it is the same for every
    login of that username. *)
Theorem login_token :
  ∃ token_of : string → string,
    (∀ u, contains (token_of u) u)
    ∧ ∀ (req : LoginRequest.t) (w : World),
        if bool_decide (LoginRequest.username req = ""
                        ∨ LoginRequest.password req = "")
        then login req w
             = (Raise (HTTPException 400 "Username and password required"), w)
        else login req w
             = (Return (LoginResponse.mk (token_of (LoginRequest.username req))),
                mk_world (db w)
                  ({[token_of (LoginRequest.username req)]} ∪ SESSIONS w)).
Proof.
  exists (λ u, "token-" +:+ u). split.
  - intros u. exists "token-", "". by rewrite (append_nil_r u).
  - intros [u p] w. unfold login.
    cbn [LoginRequest.username LoginRequest.password].
    case_bool_decide as Hd.
    + assert (negb (truthy_str (Some u)) || negb (truthy_str (Some p)) = true)
        as ->; [|done].
      destruct Hd as [-> | ->]; [done|apply orb_true_r].
    + assert (negb (truthy_str (Some u)) || negb (truthy_str (Some p)) = false)
        as ->; [|done].
      apply orb_false_iff.
      split; apply negb_false_iff, not_false_iff_true;
        rewrite truthy_str_spec; naive_solver.
Qed.

End Login.

(** ** CSV export *)

Section CsvExport.
Context `{!PyRuntime}.

Lemma digit_cases (k : N) (P : N → Prop) :
  (k < 16)%N →
  P 0%N → P 1%N → P 2%N → P 3%N → P 4%N → P 5%N → P 6%N → P 7%N →
  P 8%N → P 9%N → P 10%N → P 11%N → P 12%N → P 13%N → P 14%N → P 15%N →
  P k.
Proof.
  intros Hk. destruct k as [|p]; [done|].
  do 4 (try destruct p as [p|p|]); try done; lia.
Qed.











End CsvExport.

(** ** Marking attendance *)

Section Marking.
Context `{!PyRuntime}.
#[local] Opaque insert_one delete_one delete_many update_one.

Lemma dump_lookup (p : Attendance.t) :
  Attendance.model_dump p !! "student_id" = Some (VStr (Attendance.student_id p))
  ∧ Attendance.model_dump p !! "date" = Some (VDate (Attendance.date p))
  ∧ Attendance.model_dump p !! "status" = Some (VStr (Attendance.status p))
  ∧ Attendance.model_dump p !! "created_at" = None
  ∧ Attendance.model_dump p !! "_id" = None.
Proof. by destruct p. Qed.

Lemma mark_key_eq (p : Attendance.t) :
  mark_key p
  = <["student_id" := CEq (VStr (Attendance.student_id p))]>
      (<["date" := CEq (VDate (Attendance.date p))]> ∅).
Proof. by destruct p. Qed.

Lemma mark_key_matches (p : Attendance.t) (d : doc) :
  matches (mark_key p) d = is_for (Attendance.student_id p) (Attendance.date p) d.
Proof.
  rewrite mark_key_eq, matches_insert, matches_singleton_insert by done.
  unfold is_for. simpl.
  destruct (d !! "student_id") as [v|], (d !! "date") as [v'|]; simpl;
    repeat case_bool_decide; naive_solver.
Qed.

Lemma is_for_key (sid : string) (t : date) (d : doc) :
  is_for sid t d = true ↔ att_key d = (Some (VStr sid), Some (VDate t)).
Proof.
  unfold is_for, att_key. rewrite bool_decide_eq_true.
  split; [intros [-> ->]; done | intros [= -> ->]; done].
Qed.

(** The fields of the record an upsert inserts. *)
Lemma upserted_fields (p : Attendance.t) (o : Oid.t) :
  let d := with_id o (upd_set (mark_update p) ∪ upd_setOnInsert (mark_update p)
                      ∪ eq_fields (mark_key p)) in
  d !! "student_id" = Some (VStr (Attendance.student_id p))
  ∧ d !! "date" = Some (VDate (Attendance.date p))
  ∧ d !! "status" = Some (VStr (Attendance.status p))
  ∧ d !! "created_at" = Some VNull
  ∧ d !! "_id" = Some (VObjectId o).
Proof. destruct p. repeat split; vm_compute; reflexivity. Qed.


Lemma existsb_matches_key (p : Attendance.t) (c : list doc) :
  existsb (matches (mark_key p)) c
  = existsb (is_for (Attendance.student_id p) (Attendance.date p)) c.
Proof.
  induction c as [|d c IH]; simpl; [done|]. by rewrite mark_key_matches, IH.
Qed.


(** [$set] of the payload on a record of its key keeps the key and the
    [created_at] field, and sets the status. *)
Lemma set_on_record (p : Attendance.t) (d : doc) :
  is_for (Attendance.student_id p) (Attendance.date p) d = true →
  att_key (Attendance.model_dump p ∪ d) = att_key d
  ∧ created_at (Attendance.model_dump p ∪ d) = created_at d
  ∧ (Attendance.model_dump p ∪ d) !! "status"
    = Some (VStr (Attendance.status p)).
Proof.
  intros Hk%is_for_key. destruct (dump_lookup p) as (Hs & Hd & Hst & Hc & _).
  split; [|split].
  - rewrite Hk. unfold att_key.
    by rewrite (lookup_union_Some_l _ _ _ _ Hs), (lookup_union_Some_l _ _ _ _ Hd).
  - unfold created_at. by rewrite lookup_union_r.
  - by apply lookup_union_Some_l.
Qed.





Lemma mark_run (p : Attendance.t) (s : Store) (S : gset string) :
  let s' := (update_one "attendance" (mark_key p) (mark_update p) true s).2 in
  mark_attendance p (mk_world (Some s) S)
  = (Return (serialize <$> find_one (mark_key p) (coll s' "attendance")),
     mk_world (Some s') S).
Proof. reflexivity. Qed.

Lemma mark_collection (p : Attendance.t) (s : Store) :
  coll (update_one "attendance" (mark_key p) (mark_update p) true s).2 "attendance"
  = if existsb (is_for (Attendance.student_id p) (Attendance.date p))
         (coll s "attendance")
    then update_first (mark_key p) (Attendance.model_dump p) (coll s "attendance")
    else (coll s "attendance" ++
          [with_id (next_oid s)
             (upd_set (mark_update p) ∪ upd_setOnInsert (mark_update p)
              ∪ eq_fields (mark_key p))])%list.
Proof.
  rewrite coll_update_one, decide_True by done.
  by rewrite existsb_matches_key.
Qed.


Lemma sublist_Forall {A} (P : A → Prop) (l k : list A) :
  l `sublist_of` k → Forall P k → Forall P l.
Proof.
  induction 1 as [|x l k _ IH|x l k _ IH]; [done| |];
    intros [Hx Hk]%Forall_cons; [constructor|]; auto.
Qed.

Lemma delete_first_sublist (f : filter) (c : list doc) :
  delete_first f c `sublist_of` c.
Proof.
  induction c as [|d c IH]; simpl; [constructor|].
  destruct (matches f d); by constructor.
Qed.

Lemma delete_all_sublist (f : filter) (c : list doc) :
  delete_all f c `sublist_of` c.
Proof.
  unfold delete_all. induction c as [|d c IH]; simpl; [constructor|].
  destruct (negb (matches f d)); by constructor.
Qed.









End Marking.

(** ** The attendance collection in every reachable world *)

Section Reachable.
Context `{!PyRuntime}.
#[local] Opaque insert_one delete_one delete_many update_one.













End Reachable.

(** ** Upsert by student and date *)

Section Upsert.
Context `{!PyRuntime}.
#[local] Opaque insert_one delete_one delete_many update_one.



End Upsert.

(** ** What [serialize] changes *)

Section Serialize.
Context `{!PyRuntime}.

Lemma serialize_lookup (d : doc) (k : string) :
  serialize d !! k
  = if decide (k = "_id") then (λ v, VStr (py_str v)) <$> d !! "_id"
    else d !! k.
Proof.
  unfold serialize. case_bool_decide as He.
  - subst d. rewrite !lookup_empty. by case_decide.
  - destruct (d !! "_id") as [v|] eqn:Hid.
    + case_decide as Hk; [subst; by rewrite lookup_insert_eq|].
      by rewrite lookup_insert_ne.
    + case_decide; by subst.
Qed.

(** X1: [serialize] turns the [_id] of a document into its text and leaves
    every other field, and the set of fields, as they are; serializing
    twice is serializing once. *)
Theorem serialize_only_id (d : doc) :
  (∀ k, k ≠ "_id" → serialize d !! k = d !! k)
  ∧ serialize d !! "_id" = (λ v, VStr (py_str v)) <$> d !! "_id"
  ∧ dom (serialize d) = dom d
  ∧ serialize (serialize d) = serialize d.
Proof.
  split; [|split; [|split]].
  - intros k Hk. rewrite serialize_lookup. by rewrite decide_False.
  - rewrite serialize_lookup. by rewrite decide_True.
  - apply set_eq. intros k. rewrite !elem_of_dom, serialize_lookup.
    case_decide; [subst|done]. by rewrite fmap_is_Some.
  - apply map_eq. intros k. rewrite !serialize_lookup.
    case_decide; [|done]. by destruct (d !! "_id").
Qed.

End Serialize.

(** ** Requests that fail, requests that read, and a missing store *)

(** Unfolds a handler down to the store operations it calls. *)
Ltac run :=
  unfold handle, validated,
    create_student, list_students, update_student, delete_student,
    mark_attendance, list_attendance, export_attendance_csv,
    delete_attendance, create_agenda, list_agendas, update_agenda,
    delete_agenda, add_grade, list_grades, delete_grade, login,
    create_document, get_documents, db_unavailable, ObjectId, add_session,
    read_db;
  unfold fmap, M_fmap, mbind, M_bind, mret, M_ret, get_db, on_db, raise;
  cbn [db SESSIONS fst snd].

Section Requests.
Context `{!PyRuntime}.
#[local] Transparent update_one.

Lemma update_one_unmatched (name : string) (f : filter) (u : update) (s : Store) :
  (update_one name f u false s).1 = 0 → (update_one name f u false s).2 = s.
Proof. unfold update_one. by destruct (existsb _ _). Qed.

#[local] Opaque insert_one delete_one delete_many update_one.

Lemma delete_one_unmatched (name : string) (f : filter) (s : Store) :
  (delete_one name f s).1 = 0 → (delete_one name f s).2 = s.
Proof.
  rewrite delete_one_count. destruct (existsb _ _) eqn:E; [done|]. intros _.
  by rewrite delete_one_none by by apply existsb_false.
Qed.

(** X2: a request that lists or exports leaves the world as it was. *)
Theorem reads_change_nothing (r : request) (w : World) :
  is_read r = true → after (handle r) w = w.
Proof.
  destruct r; try discriminate; intros _; destruct w as [[s|] S];
    unfold after; run; reflexivity.
Qed.


(** X4: a request that fails leaves the world as it was, the student
    delete apart, whose cascade runs before the student is looked up. *)
Theorem failure_changes_nothing (r : request) (w : World) (e : exn) :
  is_delete_student r = false →
  answer (handle r) w = Raise e → after (handle r) w = w.
Proof.
  intros Hr. destruct w as [[s|] S]; unfold answer, after;
    destruct r; try discriminate; run;
    repeat match goal with
      | |- context [match ?v ?b with Some _ => _ | None => _ end] =>
          destruct (v b) eqn:?; cbn [fst snd db SESSIONS]
      | |- context [Nat.eqb ?c 0] =>
          destruct (Nat.eqb_spec c 0); cbn [fst snd db SESSIONS]
      | |- context [if ?c then _ else _] =>
          destruct c eqn:?; cbn [fst snd db SESSIONS]
      end;
    try discriminate; try reflexivity.
  all: try (intros _; first [ by rewrite update_one_unmatched
          | by rewrite delete_one_unmatched ]).
Qed.

End Requests.

(** ** Listing by exact date and by student *)

Section MoreQueries.
Context `{!PyRuntime}.

Lemma student_filter_spec (sid : option string) (d : doc) :
  matches (if truthy_str sid
           then <["student_id" := CEq (VStr (default "" sid))]> ∅
           else ∅) d = true
  ↔ of_student sid d.
Proof.
  rewrite <- student_cond_spec. destruct (truthy_str sid).
  - by rewrite matches_singleton_insert.
  - by rewrite matches_empty.
Qed.



(** X6: the grade list holds, in store order, exactly the grades of the
    student asked for, and every grade when none is asked for. *)
Theorem list_grades_of_student (student_id : option string) (w : World) :
  ∃ keep : doc → bool,
    (∀ d, keep d = true ↔ of_student student_id d)
    ∧ list_grades student_id w
      = (Return (serialize <$> List.filter keep (coll (store_of w) "grade")), w).
Proof.
  exists (matches (if truthy_str student_id
                   then <["student_id" := CEq (VStr (default "" student_id))]> ∅
                   else ∅)).
  split; [apply student_filter_spec|].
  destruct w as [[s|] S]; unfold list_grades; [|reflexivity].
  destruct (truthy_str student_id); [|reflexivity].
  by rewrite <- insert_empty.
Qed.

End MoreQueries.

(** ** Creating and listing *)

Section CreateList.
Context `{!PyRuntime}.
#[local] Transparent insert_one.

Lemma serialize_with_id (o : Oid.t) (data : doc) :
  serialize (<["_id" := VObjectId o]> data) = <["_id" := VStr (Oid.str o)]> data.
Proof.
  unfold serialize.
  rewrite bool_decide_eq_false_2 by apply insert_non_empty.
  rewrite lookup_insert_eq. cbn [py_str]. apply insert_insert_eq.
Qed.

(** The documents of a collection after [create_document]. *)
Lemma create_then_all (name : string) (data : doc) (s : Store) (S : gset string) :
  data !! "_id" = None →
  ∃ w', create_document name data (mk_world (Some s) S)
        = (Return (Oid.str (next_oid s)), w')
        ∧ get_documents name ∅ w'
          = (Return (coll s name ++ [<["_id" := VObjectId (next_oid s)]> data])%list,
             w').
Proof.
  intros Hid. eexists. split.
  - rewrite create_document_run. cbn [db].
    unfold insert_one, doc_id. cbn [fst snd]. rewrite Hid. reflexivity.
  - unfold get_documents. rewrite bind_run. cbn [get_db db].
    rewrite read_db_run, find_all. unfold insert_one. cbn [snd].
    rewrite coll_alter_insert. unfold with_id. by rewrite Hid.
Qed.

(** X7: with a store, creating a student, an agenda or a grade answers
    with the text of the generated identifier, and the list that follows
    is the list as it was, followed by the record just created: the fields
    of the payload with that identifier as [_id]; a missing note or date is
    listed as null. *)
Theorem create_then_list (w : World) (s : Store) :
  db w = Some s →
  let id := Oid.str (next_oid s) in
  let created (data : doc) := <["_id" := VStr id]> data in
  (∀ p, answer (create_student p) w = Return {["_id" := VStr id]}
        ∧ answer list_students (after (create_student p) w)
          = Return ((serialize <$> coll s "student")
                    ++ [created (Student.model_dump p)])%list)
  ∧ (∀ p, answer (create_agenda p) w = Return {["_id" := VStr id]}
          ∧ answer list_agendas (after (create_agenda p) w)
            = Return ((serialize <$> coll s "agenda")
                      ++ [created (Agenda.model_dump p)])%list)
  ∧ (∀ p, answer (add_grade p) w = Return {["_id" := VStr id]}
          ∧ answer (list_grades None) (after (add_grade p) w)
            = Return ((serialize <$> coll s "grade")
                      ++ [created (Grade.model_dump p)])%list).
Proof.
  intros Hdb id created. destruct w as [d S]. simpl in Hdb. subst d.
  assert (Hgen : ∀ name data, data !! "_id" = None →
    answer (_id ← create_document name data; mret ({["_id" := VStr _id]} : doc))
      (mk_world (Some s) S) = Return {["_id" := VStr id]}
    ∧ answer (docs ← get_documents name ∅; mret (serialize <$> docs))
        (after (_id ← create_document name data;
                mret ({["_id" := VStr _id]} : doc)) (mk_world (Some s) S))
      = Return ((serialize <$> coll s name) ++ [created data])%list).
  { intros name data Hid.
    destruct (create_then_all name data s S Hid) as (w' & Hc & Hl).
    unfold answer, after. rewrite !bind_run, Hc. cbn [fst snd mret M_ret].
    split; [done|]. rewrite Hl. cbn [fst mret M_ret].
    by rewrite fmap_app, fmap_cons, serialize_with_id. }
  split; [|split]; intros p.
  - apply (Hgen "student"). by destruct p.
  - apply (Hgen "agenda"). by destruct p.
  - apply (Hgen "grade"). by destruct p.
Qed.

End CreateList.

(** ** Deleting and updating by identifier *)

Section ById.
Context `{!PyRuntime}.
#[local] Opaque insert_one delete_one delete_many update_one.

Lemma matches_id (o : Oid.t) (d : doc) :
  matches {["_id" := CEq (VObjectId o)]} d = has_id o d.
Proof.
  rewrite matches_singleton. unfold has_id. cbn [cond_holds].
  destruct (d !! "_id") as [v|].
  - apply bool_decide_ext. naive_solver.
  - rewrite bool_decide_eq_false_2 by done. by rewrite bool_decide_eq_false_2.
Qed.

Lemma matches_reference (id : string) (d : doc) :
  matches {["student_id" := CEq (VStr id)]} d = references id d.
Proof.
  rewrite matches_singleton. unfold references. cbn [cond_holds].
  destruct (d !! "student_id") as [v|].
  - apply bool_decide_ext. naive_solver.
  - rewrite bool_decide_eq_false_2 by done. by rewrite bool_decide_eq_false_2.
Qed.

Lemma existsb_id (o : Oid.t) (c : list doc) :
  Exists (λ d, d !! "_id" = Some (VObjectId o)) c →
  existsb (matches {["_id" := CEq (VObjectId o)]}) c = true.
Proof.
  intros (d & Hin & Hd)%Exists_exists. apply existsb_exists. exists d.
  split; [by apply list_elem_of_In|].
  rewrite matches_id. by apply bool_decide_eq_true.
Qed.

Lemma delete_first_removed (o : Oid.t) (c : list doc) :
  existsb (matches {["_id" := CEq (VObjectId o)]}) c = true →
  removed_one o c (delete_first {["_id" := CEq (VObjectId o)]} c).
Proof.
  induction c as [|d c IH]; [done|]. cbn [existsb delete_first].
  destruct (matches _ d) eqn:Hd.
  - intros _. exists [], d, c. rewrite <- matches_id. by repeat split.
  - intros (pre & x & post & -> & -> & Hx & Hpre)%IH.
    exists (d :: pre), x, post. repeat split; [done|].
    constructor; [by rewrite <- matches_id|done].
Qed.

Lemma update_first_updated (o : Oid.t) (data : doc) (c : list doc) :
  existsb (matches {["_id" := CEq (VObjectId o)]}) c = true →
  updated_one o data c (update_first {["_id" := CEq (VObjectId o)]} data c).
Proof.
  induction c as [|d c IH]; [done|]. cbn [existsb update_first].
  destruct (matches _ d) eqn:Hd.
  - intros _. exists [], d, c. rewrite <- matches_id. by repeat split.
  - intros (pre & x & post & -> & -> & Hx & Hpre)%IH.
    exists (d :: pre), x, post. repeat split; [done|].
    constructor; [by rewrite <- matches_id|done].
Qed.

Lemma delete_all_references (id : string) (c : list doc) :
  delete_all {["student_id" := CEq (VStr id)]} c
  = List.filter (λ d, negb (references id d)) c.
Proof.
  unfold delete_all. induction c as [|d c IH]; [done|]. cbn [List.filter].
  by rewrite matches_reference, IH.
Qed.

(** X8: deleting an attendance record, an agenda or a grade by the
    identifier of a stored record answers [deleted: true], removes the
    first record of that identifier from its collection and nothing else,
    and leaves the other collections as they were. *)
Theorem delete_by_id (e : entity) (w : World) (s : Store) (id : string)
    (o : Oid.t) :
  e ≠ EStudent →
  db w = Some s →
  Oid.of_string id = Some o →
  Exists (λ d, d !! "_id" = Some (VObjectId o)) (coll s (collection_of e)) →
  ∃ s', handle (delete_request e id) w
        = (Return (RObject {["deleted" := VBool true]}),
           mk_world (Some s') (SESSIONS w))
        ∧ removed_one o (coll s (collection_of e)) (coll s' (collection_of e))
        ∧ ∀ name, name ≠ collection_of e → coll s' name = coll s name.
Proof.
  intros He Hdb Hid Hex%existsb_id. destruct w as [d S]. simpl in Hdb. subst d.
  exists (delete_one (collection_of e) {["_id" := CEq (VObjectId o)]} s).2.
  split; [|split].
  - destruct e; [done| | |]; cbn [delete_request collection_of] in *; run;
      rewrite Hid; cbn [fst snd db SESSIONS];
      rewrite delete_one_count; by rewrite Hex.
  - rewrite coll_delete_one, decide_True by done.
    by apply delete_first_removed.
  - intros name Hn. rewrite coll_delete_one. by rewrite decide_False.
Qed.

(** X9: deleting a student by the identifier of a stored student answers
    [deleted: true], removes that student, removes exactly the attendance
    records and the grades that name the identifier as their student, in
    place, and leaves every other collection as it was. *)
Theorem delete_student_cascade (w : World) (s : Store) (id : string) (o : Oid.t) :
  db w = Some s →
  Oid.of_string id = Some o →
  Exists (λ d, d !! "_id" = Some (VObjectId o)) (coll s "student") →
  ∃ s', delete_student id w
        = (Return {["deleted" := VBool true]}, mk_world (Some s') (SESSIONS w))
        ∧ removed_one o (coll s "student") (coll s' "student")
        ∧ coll s' "attendance"
          = List.filter (λ d, negb (references id d)) (coll s "attendance")
        ∧ coll s' "grade"
          = List.filter (λ d, negb (references id d)) (coll s "grade")
        ∧ ∀ name, name ≠ "student" → name ≠ "attendance" → name ≠ "grade" →
                  coll s' name = coll s name.
Proof.
  intros Hdb Hid Hex%existsb_id. destruct w as [d S]. simpl in Hdb. subst d.
  set (f := {["student_id" := CEq (VStr id)]} : filter).
  set (s1 := (delete_many "attendance" f s).2).
  set (s2 := (delete_many "grade" f s1).2).
  exists (delete_one "student" {["_id" := CEq (VObjectId o)]} s2).2.
  assert (Hst : coll s2 "student" = coll s "student").
  { unfold s2, s1. by rewrite !coll_delete_many, !decide_False. }
  split; [|split; [|split; [|split]]].
  - run. rewrite Hid. cbn [fst snd db SESSIONS]. fold f s1 s2.
    rewrite delete_one_count, Hst. by rewrite Hex.
  - rewrite coll_delete_one, decide_True, Hst by done.
    by apply delete_first_removed.
  - rewrite coll_delete_one, decide_False by done. unfold s2, s1.
    rewrite coll_delete_many, decide_False by done.
    rewrite coll_delete_many, decide_True by done.
    apply delete_all_references.
  - rewrite coll_delete_one, decide_False by done. unfold s2, s1.
    rewrite coll_delete_many, decide_True by done.
    rewrite coll_delete_many, decide_False by done.
    apply delete_all_references.
  - intros name H1 H2 H3. rewrite coll_delete_one, decide_False by done.
    unfold s2, s1. by rewrite !coll_delete_many, !decide_False.
Qed.

Lemma existsb_has_id (o : Oid.t) (c : list doc) :
  existsb (matches {["_id" := CEq (VObjectId o)]}) c = existsb (has_id o) c.
Proof.
  induction c as [|d c IH]; [done|]. cbn [existsb]. by rewrite matches_id, IH.
Qed.

Lemma update_first_ids (f : filter) (data : doc) (c : list doc) :
  data !! "_id" = None → ids_of (update_first f data c) = ids_of c.
Proof.
  intros Hid. unfold ids_of.
  induction c as [|d c IH]; [done|]. cbn [update_first].
  destruct (matches f d); rewrite !fmap_cons.
  - by rewrite lookup_union_r.
  - by rewrite IH.
Qed.

(** What [update_one] by identifier, without upsert, does to the store. *)
Lemma update_by_id_store (name : string) (o : Oid.t) (data : doc) (s : Store) :
  data !! "_id" = None →
  let r := update_one name {["_id" := CEq (VObjectId o)]} (mk_update data ∅)
             false s in
  if existsb (has_id o) (coll s name)
  then r.1 = 1
       ∧ updated_one o data (coll s name) (coll r.2 name)
       ∧ ids_of (coll r.2 name) = ids_of (coll s name)
       ∧ ∀ name', name' ≠ name → coll r.2 name' = coll s name'
  else r = (0, s).
Proof.
  intros Hid r. unfold r. rewrite <- existsb_has_id.
  destruct (existsb _ (coll s name)) eqn:Hex.
  - rewrite update_one_count, Hex. split; [done|].
    rewrite coll_update_one, decide_True, Hex by done. cbn [upd_set].
    split; [by apply update_first_updated|].
    split; [by apply update_first_ids|].
    intros name' Hn. rewrite coll_update_one. by rewrite decide_False.
  - pose proof (update_one_count name {["_id" := CEq (VObjectId o)]}
                  (mk_update data ∅) false s) as Hc.
    pose proof (update_one_unmatched name {["_id" := CEq (VObjectId o)]}
                  (mk_update data ∅) s) as Hs.
    rewrite Hex in Hc. destruct (update_one _ _ _ _ _) as [n s'].
    cbn [fst snd] in *. subst n. by rewrite Hs.
Qed.

(** X10: updating a student by a well-formed identifier sets the name and
    the class of the first student of that identifier, keeps its [_id] and
    every other record and collection, and answers [updated: true]; when
    no student has the identifier it answers 404 and changes nothing. *)
Theorem update_student_by_id (w : World) (s : Store) (id : string) (o : Oid.t)
    (p : Student.t) :
  db w = Some s →
  Oid.of_string id = Some o →
  if existsb (has_id o) (coll s "student")
  then ∃ s', update_student id p w
             = (Return {["updated" := VBool true]}, mk_world (Some s') (SESSIONS w))
             ∧ updated_one o (Student.model_dump p)
                 (coll s "student") (coll s' "student")
             ∧ ids_of (coll s' "student") = ids_of (coll s "student")
             ∧ ∀ name, name ≠ "student" → coll s' name = coll s name
  else update_student id p w = (Raise (HTTPException 404 "Student not found"), w).
Proof.
  intros Hdb Hid. destruct w as [d S]. simpl in Hdb. subst d.
  assert (Hdump : Student.model_dump p !! "_id" = None) by by destruct p.
  pose proof (update_by_id_store "student" o _ s Hdump) as Hu. cbn zeta in Hu.
  destruct (existsb (has_id o) (coll s "student")).
  - destruct Hu as (Hc & Hrest). eexists. split; [|exact Hrest].
    run. rewrite Hid. cbn [fst snd db SESSIONS]. by rewrite Hc.
  - run. rewrite Hid. cbn [fst snd db SESSIONS]. by rewrite Hu.
Qed.


End ById.

(** ** Marking again, and what a mark leaves alone *)

Section MoreMarking.
Context `{!PyRuntime}.
#[local] Transparent update_one insert_one.

Lemma union_absorb (data d : doc) : data ∪ (data ∪ d) = data ∪ d.
Proof. by rewrite (assoc_L (∪)), (idemp_L (∪)). Qed.

Lemma set_keeps_match (p : Attendance.t) (d : doc) :
  matches (mark_key p) d = true →
  matches (mark_key p) (Attendance.model_dump p ∪ d) = true.
Proof.
  rewrite !mark_key_matches. intros Hd. apply is_for_key.
  rewrite (proj1 (set_on_record p d Hd)). by apply is_for_key.
Qed.

Lemma update_first_twice (p : Attendance.t) (c : list doc) :
  let f := mark_key p in
  let data := Attendance.model_dump p in
  update_first f data (update_first f data c) = update_first f data c.
Proof.
  intros f data. induction c as [|d c IH]; [done|]. cbn [update_first].
  destruct (matches f d) eqn:Hd; cbn [update_first].
  - unfold f, data. rewrite (set_keeps_match p d Hd). by rewrite union_absorb.
  - by rewrite Hd, IH.
Qed.

Lemma update_first_app_last (f : filter) (data : doc) (c : list doc) (d : doc) :
  existsb (matches f) c = false → matches f d = true →
  update_first f data (c ++ [d]) = (c ++ [data ∪ d])%list.
Proof.
  induction c as [|x c IH]; cbn [existsb app update_first].
  - by intros _ ->.
  - intros [-> Hc]%orb_false_iff Hd. by rewrite IH.
Qed.

Lemma existsb_update_first (f : filter) (data : doc) (c : list doc) :
  (∀ d, matches f d = true → matches f (data ∪ d) = true) →
  existsb (matches f) (update_first f data c) = existsb (matches f) c.
Proof.
  intros Hk. induction c as [|d c IH]; [done|]. cbn [update_first].
  destruct (matches f d) eqn:Hd; cbn [existsb].
  - by rewrite (Hk d Hd), Hd.
  - by rewrite Hd, IH.
Qed.

(** The upserted record already carries the payload. *)
Lemma upserted_absorbs (p : Attendance.t) (o : Oid.t) :
  let new := with_id o (upd_set (mark_update p) ∪ upd_setOnInsert (mark_update p)
                        ∪ eq_fields (mark_key p)) in
  Attendance.model_dump p ∪ new = new ∧ matches (mark_key p) new = true.
Proof.
  intros new. destruct (upserted_fields p o) as (Hs & Hd & Hst & Hc & Hi).
  fold new in Hs, Hd, Hst, Hc, Hi. split.
  - destruct (dump_lookup p) as (Ds & Dd & Dst & Dc & Di).
    apply map_eq. intros k. rewrite lookup_union.
    destruct (Attendance.model_dump p !! k) as [v|] eqn:Hk;
      [|by rewrite (left_id_L None (∪))].
    assert (Hnew : new !! k = Some v); [|by rewrite Hnew].
    destruct (decide (k = "student_id")) as [->|Hk1]; [congruence|].
    destruct (decide (k = "date")) as [->|Hk2]; [congruence|].
    destruct (decide (k = "status")) as [->|Hk3]; [congruence|].
    exfalso. destruct p as [sid t st]. unfold Attendance.model_dump in Hk.
    rewrite !lookup_insert_ne, lookup_empty in Hk by congruence.
    discriminate Hk.
  - rewrite mark_key_matches. apply bool_decide_eq_true. by split.
Qed.

(** The store after a mark is a fixed point of the same mark. *)
Lemma mark_store_fixed (p : Attendance.t) (s : Store) :
  let op := update_one "attendance" (mark_key p) (mark_update p) true in
  op (op s).2 = (1, (op s).2).
Proof.
  intros op.
  assert (Hex : existsb (matches (mark_key p)) (coll (op s).2 "attendance") = true).
  { unfold op. rewrite coll_update_one, decide_True by done.
    destruct (existsb (matches (mark_key p)) (coll s "attendance")) eqn:E.
    - rewrite existsb_update_first; [done|]. apply set_keeps_match.
    - rewrite existsb_app. cbn [existsb].
      rewrite (proj2 (upserted_absorbs p (next_oid s))). by rewrite orb_true_r. }
  assert (Hfix : update_first (mark_key p) (upd_set (mark_update p))
                   (coll (op s).2 "attendance") = coll (op s).2 "attendance").
  { unfold op. rewrite coll_update_one, decide_True by done.
    destruct (existsb (matches (mark_key p)) (coll s "attendance")) eqn:E.
    - apply update_first_twice.
    - rewrite update_first_app_last;
        [|done|apply (upserted_absorbs p (next_oid s))].
      pose proof (proj1 (upserted_absorbs p (next_oid s))) as Ha.
      cbn zeta in Ha.
      change (upd_set (mark_update p)) with (Attendance.model_dump p) in Ha |- *.
      by rewrite Ha. }
  unfold op at 1. unfold update_one at 1. rewrite Hex. f_equal.
  by apply alter_coll_id.
Qed.

(** X12: marking attendance is idempotent: a second call with the same
    payload leaves the world as the first call left it and returns the
    same record. *)
Theorem mark_idempotent (p : Attendance.t) (w : World) :
  after (mark_attendance p) (after (mark_attendance p) w)
  = after (mark_attendance p) w
  ∧ answer (mark_attendance p) (after (mark_attendance p) w)
    = answer (mark_attendance p) w.
Proof.
  destruct w as [[s|] S]; [|by split].
  unfold after, answer. rewrite !mark_run. cbn [fst snd].
  rewrite !mark_run. cbn [fst snd]. by rewrite mark_store_fixed.
Qed.

Lemma other_keys_update_first (p : Attendance.t) (c : list doc) :
  let q d := negb (is_for (Attendance.student_id p) (Attendance.date p) d) in
  List.filter q (update_first (mark_key p) (Attendance.model_dump p) c)
  = List.filter q c.
Proof.
  intros q. induction c as [|d c IH]; [done|]. cbn [update_first].
  destruct (matches (mark_key p) d) eqn:Hd; cbn [List.filter].
  - pose proof (set_keeps_match p d Hd) as Hd'.
    rewrite mark_key_matches in Hd, Hd'. unfold q. by rewrite Hd, Hd'.
  - by rewrite IH.
Qed.

(** X13: a mark leaves every attendance record of another student or
    date as it was and in place, keeps the [_id] of every record there
    was, adds one record at most, and leaves the other collections as
    they were. *)
Theorem mark_touches_its_key (p : Attendance.t) (w : World) (s : Store) :
  db w = Some s →
  let q d := negb (is_for (Attendance.student_id p) (Attendance.date p) d) in
  let s' := store_of (after (mark_attendance p) w) in
  List.filter q (coll s' "attendance") = List.filter q (coll s "attendance")
  ∧ (∃ rest, ids_of (coll s' "attendance")
             = (ids_of (coll s "attendance") ++ rest)%list
             ∧ (List.length rest ≤ 1)%nat)
  ∧ ∀ name, name ≠ "attendance" → coll s' name = coll s name.
Proof.
  intros Hdb q s'. destruct w as [d S]. simpl in Hdb. subst d.
  assert (Hs' : s' = (update_one "attendance" (mark_key p) (mark_update p)
                        true s).2) by reflexivity.
  rewrite Hs'. clear Hs' s'. split; [|split].
  - rewrite mark_collection.
    destruct (existsb _ (coll s "attendance")) eqn:Hex.
    + apply other_keys_update_first.
    + rewrite List.filter_app. cbn [List.filter]. unfold q.
      rewrite <- mark_key_matches, (proj2 (upserted_absorbs p (next_oid s))).
      cbn [negb]. by rewrite app_nil_r.
  - rewrite mark_collection.
    destruct (existsb _ (coll s "attendance")) eqn:Hex.
    + exists []. rewrite app_nil_r. split; [|cbn; lia].
      apply update_first_ids. by destruct p.
    + eexists [_]. unfold ids_of. rewrite fmap_app. split; [done|cbn; lia].
  - intros name Hn. rewrite coll_update_one. by rewrite decide_False.
Qed.

End MoreMarking.

(** ** Generated identifiers *)

Section Identifiers.
Context `{!PyRuntime}.
#[local] Transparent update_one insert_one delete_one delete_many.

Lemma hex_val_digit (n : N) : Oid.hex_val (Oid.hex_digit n) = Some (n mod 16)%N.
Proof.
  unfold Oid.hex_digit.
  assert (Hk : (n mod 16 < 16)%N) by (apply N.mod_lt; lia).
  revert Hk. generalize (n mod 16)%N as k. intros k Hk.
  by apply (digit_cases k
    (λ k, Oid.hex_val (if (k <? 10)%N then ascii_of_N (48 + k)
                       else ascii_of_N (87 + k)) = Some k) Hk).
Qed.

Lemma unhex_hex (w : nat) (n : N) (acc : string) (a : N) :
  Oid.unhex (Oid.hex w n acc) a
  = Oid.unhex acc (a * 16 ^ N.of_nat w + n mod 16 ^ N.of_nat w)%N.
Proof.
  revert n acc a. induction w as [|w IH]; intros n acc a.
  - cbn [Oid.hex]. f_equal. change (16 ^ N.of_nat 0)%N with 1%N.
    rewrite N.mod_1_r. lia.
  - cbn [Oid.hex]. rewrite IH. cbn [Oid.unhex].
    rewrite hex_val_digit. cbn [mbind option_bind]. f_equal.
    rewrite Nat2N.inj_succ, N.pow_succ_r'.
    rewrite (N.Div0.mod_mul_r n 16 (16 ^ N.of_nat w)). lia.
Qed.

Lemma length_hex (w : nat) (n : N) (acc : string) :
  String.length (Oid.hex w n acc) = (w + String.length acc)%nat.
Proof.
  revert n acc. induction w as [|w IH]; intros n acc; [done|].
  cbn [Oid.hex]. rewrite IH. cbn [String.length]. lia.
Qed.

(** The text of an identifier reads back as the identifier. *)
Lemma oid_round_trip (o : Oid.t) :
  (o < 16 ^ 24)%N → Oid.of_string (Oid.str o) = Some o.
Proof.
  intros Ho. unfold Oid.of_string, Oid.str.
  rewrite length_hex. cbn [String.length Nat.add Nat.eqb].
  rewrite unhex_hex. cbn [Oid.unhex]. f_equal.
  change (N.of_nat 24) with 24%N. rewrite N.mod_small by done. lia.
Qed.

Lemma ids_ok_sublist (n : Oid.t) (l l' : list (option value)) :
  l' `sublist_of` l → ids_ok n l → ids_ok n l'.
Proof.
  intros Hsub [Hnd Hall]. split.
  - by eapply sublist_NoDup.
  - by eapply sublist_Forall.
Qed.

Lemma ids_ok_mono (n n' : Oid.t) (l : list (option value)) :
  (n ≤ n')%N → ids_ok n l → ids_ok n' l.
Proof.
  intros Hn [Hnd Hall]. split; [done|].
  eapply Forall_impl; [exact Hall|]. intros i (o & -> & Ho).
  exists o. split; [done|lia].
Qed.

Lemma ids_ok_fresh (n : Oid.t) (l : list (option value)) :
  ids_ok n l → Some (VObjectId n) ∉ l.
Proof.
  intros [_ Hall] Hin. rewrite Forall_forall in Hall.
  destruct (Hall _ Hin) as (o & [= <-] & Ho). lia.
Qed.

Lemma ids_ok_snoc (n : Oid.t) (l : list (option value)) :
  ids_ok n l → ids_ok (n + 1)%N (l ++ [Some (VObjectId n)])%list.
Proof.
  intros Hl. pose proof (ids_ok_fresh n l Hl) as Hfresh.
  destruct (ids_ok_mono n (n + 1)%N l ltac:(lia) Hl) as [Hnd Hall]. split.
  - apply NoDup_app. split; [done|]. split; [|apply NoDup_singleton].
    intros i Hi [->|[]%elem_of_nil]%elem_of_cons. done.
  - apply Forall_app. split; [done|]. constructor; [|done].
    exists n. split; [done|lia].
Qed.

Lemma ids_of_with_id (o : Oid.t) (d : doc) :
  d !! "_id" = None → with_id o d !! "_id" = Some (VObjectId o).
Proof. intros Hd. unfold with_id. rewrite Hd. apply lookup_insert_eq. Qed.

Lemma insert_one_keeps_ids (name : string) (d : doc) :
  d !! "_id" = None → op_keeps ids_inv (insert_one name d).
Proof.
  intros Hd s Hs name'. unfold insert_one. cbn [snd next_oid].
  change (coll {| colls := <[name:=(coll s name ++ [with_id (next_oid s) d])%list]> (colls s);
                  next_oid := (next_oid s + 1)%N |} name')
    with (coll (insert_one name d s).2 name').
  rewrite coll_insert_one. case_decide as Hn.
  - subst. unfold ids_of. rewrite fmap_app, fmap_cons, ids_of_with_id by done.
    apply ids_ok_snoc, Hs.
  - eapply ids_ok_mono; [|apply Hs]. lia.
Qed.

Lemma delete_one_keeps_ids (name : string) (f : filter) :
  op_keeps ids_inv (delete_one name f).
Proof.
  intros s Hs name'.
  change (next_oid (delete_one name f s).2) with (next_oid s).
  rewrite coll_delete_one. case_decide; [subst|apply Hs].
  eapply ids_ok_sublist; [|apply Hs]. apply fmap_sublist, delete_first_sublist.
Qed.

Lemma delete_many_keeps_ids (name : string) (f : filter) :
  op_keeps ids_inv (delete_many name f).
Proof.
  intros s Hs name'.
  change (next_oid (delete_many name f s).2) with (next_oid s).
  rewrite coll_delete_many. case_decide; [subst|apply Hs].
  eapply ids_ok_sublist; [|apply Hs]. apply fmap_sublist, delete_all_sublist.
Qed.

Lemma update_one_keeps_ids (name : string) (f : filter) (u : update)
    (upsert : bool) :
  upd_set u !! "_id" = None →
  (upsert = true →
   (upd_set u ∪ upd_setOnInsert u ∪ eq_fields f) !! "_id" = None) →
  op_keeps ids_inv (update_one name f u upsert).
Proof.
  intros Hset Hnew s Hs. unfold update_one.
  destruct (existsb (matches f) (coll s name)) eqn:Hex.
  - intros name'. cbn [snd next_oid].
    change (coll {| colls := alter (update_first f (upd_set u)) name (colls s);
                    next_oid := next_oid s |} name')
      with (coll (mk_store (alter (update_first f (upd_set u)) name (colls s))
                    (next_oid s)) name').
    destruct s as [cs n]. rewrite coll_alter by done. cbn [next_oid].
    case_decide; [subst|apply Hs].
    rewrite update_first_ids by done. apply Hs.
  - destruct upsert; [|done]. apply insert_one_keeps_ids; [by apply Hnew|done].
Qed.

Lemma keeps_ret {A} (I : Store → Prop) (a : A) : keeps I (mret a).
Proof. by intros w. Qed.

Lemma keeps_raise {A} (I : Store → Prop) (e : exn) : keeps I (@raise A e).
Proof. by intros w. Qed.

Lemma keeps_bind {A B} (I : Store → Prop) (m : M A) (k : A → M B) :
  keeps I m → (∀ a, keeps I (k a)) → keeps I (m ≫= k).
Proof.
  intros Hm Hk w Hw. rewrite bind_run. specialize (Hm w Hw).
  destruct (m w) as [[a|e] w']; [by apply Hk|done].
Qed.

Lemma keeps_fmap {A B} (I : Store → Prop) (f : A → B) (m : M A) :
  keeps I m → keeps I (f <$> m).
Proof.
  intros Hm w Hw. rewrite fmap_run. specialize (Hm w Hw).
  by destruct (m w) as [[a|e] w'].
Qed.

Lemma keeps_get_db (I : Store → Prop) : keeps I get_db.
Proof. by intros w. Qed.

Lemma keeps_on_db {A} (I : Store → Prop) (op : Store → A * Store) :
  op_keeps I op → keeps I (on_db op).
Proof.
  intros Hop [[s|] S] Hw; [|done]. rewrite on_db_run. by apply Hop.
Qed.

Lemma keeps_read_db {A} (I : Store → Prop) (q : Store → A) : keeps I (read_db q).
Proof. apply keeps_on_db. by intros s. Qed.

Lemma keeps_ObjectId (I : Store → Prop) (s : string) : keeps I (ObjectId s).
Proof. unfold ObjectId. by destruct (Oid.of_string s); intros w. Qed.

Lemma keeps_add_session (I : Store → Prop) (token : string) :
  keeps I (add_session token).
Proof. by intros [d S]. Qed.

Ltac keep :=
  repeat first
    [ apply keeps_ret | apply keeps_raise | apply keeps_get_db
    | apply keeps_read_db | apply keeps_ObjectId
    | apply keeps_add_session | apply keeps_fmap
    | apply keeps_bind; [|intros ?]
    | apply keeps_on_db
    | match goal with
      | |- keeps _ (match ?x with _ => _ end) => destruct x
      end ].

Lemma handle_keeps_ids (r : request) : keeps ids_inv (handle r).
Proof.
  destruct r; unfold handle, validated;
    try (apply keeps_fmap; intros w Hw; by rewrite list_attendance_run);
    unfold create_student, list_students, update_student, delete_student,
      mark_attendance, list_attendance, export_attendance_csv,
      delete_attendance, create_agenda, list_agendas, update_agenda,
      delete_agenda, add_grade, list_grades, delete_grade, login,
      create_document, get_documents, db_unavailable;
    keep;
    first [ apply delete_one_keeps_ids | apply delete_many_keeps_ids
          | apply insert_one_keeps_ids;
              match goal with p : _ |- _ => by destruct p end
          | apply update_one_keeps_ids; try discriminate;
              match goal with p : _ |- _ => by destruct p end ].
Qed.

Lemma reachable_ids_inv (w : World) : reachable w → ids_inv (store_of w).
Proof.
  induction 1 as [| |w r _ IH].
  - intros n. split; constructor.
  - intros n. split; constructor.
  - by apply handle_keeps_ids.
Qed.

(** X14: in every world the process reaches, every stored document
    carries an identifier the store generated, and no two documents of a
    collection carry the same identifier. *)
Theorem reachable_ids (w : World) (name : string) :
  reachable w →
  NoDup (ids_of (coll (store_of w) name))
  ∧ Forall (λ d, ∃ o, d !! "_id" = Some (VObjectId o)) (coll (store_of w) name).
Proof.
  intros Hinv%reachable_ids_inv.
  destruct (Hinv name) as [Hnd Hall]. split; [done|].
  unfold ids_of in Hall. rewrite Forall_fmap in Hall.
  eapply Forall_impl; [exact Hall|].
  intros d (o & Ho & _). by exists o.
Qed.

Lemma delete_first_app_last (f : filter) (c : list doc) (d : doc) :
  existsb (matches f) c = false → matches f d = true →
  delete_first f (c ++ [d]) = c.
Proof.
  induction c as [|x c IH]; cbn [existsb app delete_first].
  - by intros _ ->.
  - intros [-> Hc]%orb_false_iff Hd. by rewrite IH.
Qed.

Lemma fresh_unmatched (s : Store) (name : string) :
  ids_inv s →
  existsb (matches {["_id" := CEq (VObjectId (next_oid s))]}) (coll s name)
  = false.
Proof.
  intros Hs. apply existsb_false, Forall_forall. intros d Hd.
  apply not_true_is_false. rewrite matches_id. unfold has_id.
  rewrite bool_decide_eq_true. intros Hid.
  apply (ids_ok_fresh _ _ (Hs name)). rewrite <- Hid.
  unfold ids_of. apply list_elem_of_fmap. by exists d.
Qed.

Lemma insert_one_id (name : string) (data : doc) (s : Store) :
  data !! "_id" = None → (insert_one name data s).1 = VObjectId (next_oid s).
Proof. intros Hd. unfold insert_one, doc_id. cbn [fst]. by rewrite Hd. Qed.

(** Deleting what was just inserted, by its generated identifier. *)
Lemma insert_then_delete (name : string) (data : doc) (s : Store) :
  data !! "_id" = None → ids_inv s →
  let s1 := (insert_one name data s).2 in
  let r := delete_one name {["_id" := CEq (VObjectId (next_oid s))]} s1 in
  r.1 = 1 ∧ ∀ name', coll r.2 name' = coll s name'.
Proof.
  intros Hd Hs s1 r.
  assert (Hnew : matches {["_id" := CEq (VObjectId (next_oid s))]}
                   (with_id (next_oid s) data) = true).
  { rewrite matches_id. apply bool_decide_eq_true. by apply ids_of_with_id. }
  assert (Hc1 : coll s1 name = (coll s name ++ [with_id (next_oid s) data])%list).
  { unfold s1. rewrite coll_insert_one. by rewrite decide_True. }
  split.
  - unfold r. rewrite delete_one_count, Hc1, existsb_app. cbn [existsb].
    by rewrite Hnew, orb_true_r.
  - intros name'. unfold r. rewrite coll_delete_one. case_decide as Hn.
    + subst. rewrite Hc1.
      apply delete_first_app_last; [by apply fresh_unmatched|exact Hnew].
    + unfold s1. rewrite coll_insert_one. by rewrite decide_False.
Qed.

(** X15: the identifier a create returns addresses the record created:
    in a reachable world, deleting an agenda or a grade by the identifier
    its creation returned answers [deleted: true] and every collection is
    again what it was before the creation. *)
Theorem create_then_delete (w : World) (s : Store) :
  reachable w → db w = Some s → (next_oid s < 16 ^ 24)%N →
  let id := Oid.str (next_oid s) in
  (∀ p, answer (create_agenda p) w = Return {["_id" := VStr id]}
        ∧ answer (delete_agenda id) (after (create_agenda p) w)
          = Return {["deleted" := VBool true]}
        ∧ ∀ name, coll (store_of (after (delete_agenda id)
                                    (after (create_agenda p) w))) name
                  = coll s name)
  ∧ (∀ p, answer (add_grade p) w = Return {["_id" := VStr id]}
          ∧ answer (delete_grade id) (after (add_grade p) w)
            = Return {["deleted" := VBool true]}
          ∧ ∀ name, coll (store_of (after (delete_grade id)
                                      (after (add_grade p) w))) name
                    = coll s name).
Proof.
  intros Hinv%reachable_ids_inv Hdb Hn id.
  destruct w as [d S]. simpl in Hdb. subst d. cbn [store_of db default] in Hinv.
  pose proof (oid_round_trip _ Hn) as Hid. fold id in Hid.
  split; intros p.
  - assert (Hd : Agenda.model_dump p !! "_id" = None) by by destruct p.
    destruct (insert_then_delete "agenda" _ s Hd Hinv) as [Hc Hrest].
    cbn zeta in Hc, Hrest. unfold answer, after. run.
    rewrite (insert_one_id _ _ _ Hd). cbn [py_str fst snd db SESSIONS].
    fold id. rewrite Hid. cbn [fst snd db SESSIONS default store_of].
    rewrite Hc. cbn [Nat.eqb fst snd db store_of default]. by repeat split.
  - assert (Hd : Grade.model_dump p !! "_id" = None) by by destruct p.
    destruct (insert_then_delete "grade" _ s Hd Hinv) as [Hc Hrest].
    cbn zeta in Hc, Hrest. unfold answer, after. run.
    rewrite (insert_one_id _ _ _ Hd). cbn [py_str fst snd db SESSIONS].
    fold id. rewrite Hid. cbn [fst snd db SESSIONS default store_of].
    rewrite Hc. cbn [Nat.eqb fst snd db store_of default]. by repeat split.
Qed.

End Identifiers.

(** ** Sessions, login statuses, malformed identifiers *)

Section Misc.
Context `{!PyRuntime}.
#[local] Opaque insert_one delete_one delete_many update_one.

Ltac split_cases :=
  repeat match goal with
    | |- context [match ?v ?b with Some _ => _ | None => _ end] =>
        destruct (v b) eqn:?; cbn [fst snd db SESSIONS]
    | |- context [Nat.eqb ?c 0] =>
        destruct (Nat.eqb c 0); cbn [fst snd db SESSIONS]
    | |- context [if ?c then _ else _] =>
        destruct c eqn:?; cbn [fst snd db SESSIONS]
    end.

(** X16: no request reads [SESSIONS]: the answer to a request and the
    store it leaves are the same whatever the set holds; only a login
    writes to the set, and nothing is ever removed from it. *)
Theorem sessions_unread (r : request) (d : option Store) (S S' : gset string) :
  answer (handle r) (mk_world d S) = answer (handle r) (mk_world d S')
  ∧ db (after (handle r) (mk_world d S)) = db (after (handle r) (mk_world d S'))
  ∧ (is_login r = false → SESSIONS (after (handle r) (mk_world d S)) = S)
  ∧ S ⊆ SESSIONS (after (handle r) (mk_world d S)).
Proof.
  unfold answer, after.
  destruct r, d as [s|]; run; split_cases;
    (split; [reflexivity|]); (split; [reflexivity|]);
    (split; [try discriminate; reflexivity|]); set_solver.
Qed.



Lemma store_of_some (s : Store) (S : gset string) :
  store_of (mk_world (Some s) S) = s.
Proof. reflexivity. Qed.

(** X19: the cascade of a student delete runs whatever the outcome: with
    a store, after the request no attendance record and no grade names the
    identifier as its student, the records of other students are as they
    were, whether the student was found, was not found, or the identifier
    was malformed. *)
Theorem cascade_runs_first (w : World) (s : Store) (id : string) :
  db w = Some s →
  let s' := store_of (after (delete_student id) w) in
  coll s' "attendance"
  = List.filter (λ d, negb (references id d)) (coll s "attendance")
  ∧ coll s' "grade"
    = List.filter (λ d, negb (references id d)) (coll s "grade").
Proof.
  intros Hdb. destruct w as [d S]. simpl in Hdb. subst d.
  cbn zeta. unfold after. run.
  destruct (Oid.of_string id) as [o|]; cbn [fst snd db SESSIONS];
    [destruct (Nat.eqb _ 0)|]; cbn [fst snd db SESSIONS];
    rewrite store_of_some; split;
    repeat first [ rewrite coll_delete_one | rewrite coll_delete_many
                 | rewrite decide_False by done
                 | rewrite decide_True by done ];
    apply delete_all_references.
Qed.




End Misc.

(** ** The export against the list, and the shape of attendance records *)

Section ExportAndShape.
Context `{!PyRuntime}.
#[local] Opaque insert_one delete_one delete_many update_one.


Lemma set_well_formed (p : Attendance.t) (d : doc) :
  well_formed_mark d → well_formed_mark (Attendance.model_dump p ∪ d).
Proof.
  intros (sid & t & st & _ & _ & _ & Hc).
  destruct (dump_lookup p) as (Ds & Dd & Dst & Dc & _).
  exists (Attendance.student_id p), (Attendance.date p), (Attendance.status p).
  rewrite !(lookup_union_Some_l _ d _ _ Ds), !(lookup_union_Some_l _ d _ _ Dd),
    !(lookup_union_Some_l _ d _ _ Dst).
  by rewrite lookup_union_r.
Qed.

Lemma update_first_well_formed (p : Attendance.t) (c : list doc) :
  Forall well_formed_mark c →
  Forall well_formed_mark
    (update_first (mark_key p) (Attendance.model_dump p) c).
Proof.
  induction 1 as [|d c Hd Hc IH]; [constructor|]. cbn [update_first].
  destruct (matches (mark_key p) d); constructor; auto.
  by apply set_well_formed.
Qed.

Lemma shape_same (s s' : Store) :
  coll s' "attendance" `sublist_of` coll s "attendance" →
  Forall well_formed_mark (coll s "attendance") →
  Forall well_formed_mark (coll s' "attendance").
Proof. intros Hsub. by apply sublist_Forall. Qed.

Lemma handle_keeps_shape (r : request) : keeps shape_inv (handle r).
Proof.
  destruct r; unfold handle, validated;
    try (apply keeps_fmap; intros w Hw; by rewrite list_attendance_run);
    unfold create_student, list_students, update_student, delete_student,
      mark_attendance, list_attendance, export_attendance_csv,
      delete_attendance, create_agenda, list_agendas, update_agenda,
      delete_agenda, add_grade, list_grades, delete_grade, login,
      create_document, get_documents, db_unavailable;
    fold (mark_key) (mark_update);
    repeat first
      [ apply keeps_ret | apply keeps_raise | apply keeps_get_db
      | apply keeps_read_db | apply keeps_ObjectId
      | apply keeps_add_session | apply keeps_fmap
      | apply keeps_bind; [|intros ?]
      | apply keeps_on_db
      | match goal with
        | |- keeps _ (match ?x with _ => _ end) => destruct x
        end ].
  all: intros st Hst; unfold shape_inv in *.
  all: try match goal with
    | |- context [update_one "attendance"
                    (attendance_key (Attendance.model_dump ?p)) _ true _] =>
        pose proof (mark_collection p st) as E;
        unfold mark_key, mark_update in E; rewrite E; clear E;
        destruct (existsb _ (coll st "attendance"));
          [ by apply update_first_well_formed
          | apply Forall_app; split; [exact Hst|]; constructor; [|constructor];
            destruct (upserted_fields p (next_oid st)) as (F1&F2&F3&F4&_);
            exact (ex_intro _ _ (ex_intro _ _ (ex_intro _ _
                     (conj F1 (conj F2 (conj F3 F4)))))) ]
    end.
  all: first [ rewrite coll_delete_one | rewrite coll_delete_many
             | rewrite coll_insert_one | rewrite coll_update_one ];
    case_decide as E; try discriminate E; try exact Hst;
    (eapply sublist_Forall; [|exact Hst]);
    first [ apply delete_first_sublist | apply delete_all_sublist ].
Qed.

(** X22: in every world the process reaches, every attendance record has
    a text student, a date, a text status and a null [created_at]. *)
Theorem reachable_marks_well_formed (w : World) :
  reachable w → Forall well_formed_mark (coll (store_of w) "attendance").
Proof.
  induction 1 as [| |w r _ IH].
  - constructor.
  - constructor.
  - by apply handle_keeps_shape.
Qed.

End ExportAndShape.

(** ** Instances on sample worlds *)

#[local] Existing Instance example_runtime.

Lemma delete_missing_id_not_found_witness :
  db Sample.school = Some (store_of Sample.school)
  ∧ Oid.of_string Sample.unused_id = Some 79228162514264337593543950335%N
  ∧ no_record 79228162514264337593543950335%N (coll (store_of Sample.school) "student")
  ∧ handle (delete_request EStudent Sample.unused_id) Sample.school
    = (Raise (not_found EStudent), Sample.school).
Proof.
  assert (H1 : db Sample.school = Some (store_of Sample.school))
    by (vm_compute; reflexivity).
  assert (H2 : Oid.of_string Sample.unused_id = Some 79228162514264337593543950335%N)
    by (vm_compute; reflexivity).
  assert (H3 : no_record 79228162514264337593543950335%N
                 (coll (store_of Sample.school) "student"))
    by (vm_compute; repeat constructor; discriminate).
  split; [exact H1|]. split; [exact H2|]. split; [exact H3|].
  apply (delete_missing_id_not_found EStudent Sample.school
           (store_of Sample.school) Sample.unused_id _ H1 H2 H3).
  intros _. split; vm_compute; repeat constructor; discriminate.
Defined.

(** C1 as stated fails for Student: with no student stored at all, the
    delete answers 404 and yet has removed the attendance record that named
    the identifier. *)
Lemma delete_student_missing_id_mutates :
  Oid.of_string Sample.id1 = Some 31170867775079872726300622849%N
  ∧ coll (store_of Sample.orphan_mark) "student" = []
  ∧ length (coll (store_of Sample.orphan_mark) "attendance") = 1
  ∧ answer (handle (DELETE_students Sample.id1)) Sample.orphan_mark
    = Raise (HTTPException 404 "Student not found")
  ∧ coll (store_of (after (handle (DELETE_students Sample.id1)) Sample.orphan_mark))
      "attendance" = [].
Proof. repeat split; vm_compute; reflexivity. Qed.

(** C2 as stated fails: a Student body whose name is the empty string is
    not rejected; the student is written with the empty name. *)
Lemma create_student_empty_name_accepted :
  Sample.nameless !! "name" = Some (JStr "")
  ∧ answer (handle (POST_students Sample.nameless)) Sample.fresh
    ≠ Raise RequestValidationError
  ∧ (λ d : doc, d !! "name")
      <$> coll (store_of (after (handle (POST_students Sample.nameless))
                            Sample.fresh)) "student"
    = [Some (VStr "")].
Proof.
  split; [vm_compute; reflexivity|].
  split; [vm_compute; discriminate|vm_compute; reflexivity].
Qed.

Lemma grade_score_validated_witness :
  (Sample.too_high !! "score" = Some (JNum Sample.f150)
   ∧ score_outside Sample.f150
   ∧ handle (POST_grades Sample.too_high) Sample.fresh
     = (Raise RequestValidationError, Sample.fresh))
  ∧ (Sample.full_marks !! "score" = Some (JNum Grade.hundred)
     ∧ score_at_bound Grade.hundred
     ∧ handle (POST_grades Sample.full_marks) Sample.fresh
       = (RObject <$> add_grade (Grade.mk Sample.id1 "Math" Grade.hundred None))
           Sample.fresh).
Proof.
  assert (H1 : Sample.too_high !! "score" = Some (JNum Sample.f150))
    by (vm_compute; reflexivity).
  assert (H2 : score_outside Sample.f150)
    by (right; left; vm_compute; reflexivity).
  assert (H3 : Sample.full_marks !! "score" = Some (JNum Grade.hundred))
    by (vm_compute; reflexivity).
  assert (H4 : score_at_bound Grade.hundred)
    by (right; vm_compute; reflexivity).
  split.
  - split; [exact H1|]. split; [exact H2|].
    exact (proj1 (grade_score_validated Sample.too_high Sample.fresh _ H1) H2).
  - split; [exact H3|]. split; [exact H4|].
    refine (proj2 (proj2 (grade_score_validated Sample.full_marks Sample.fresh _ H3)
                    H4 Sample.id1 "Math" None _ _ _)); vm_compute; reflexivity.
Defined.

Example grade_bounds_written :
  coll (store_of (after (handle (POST_grades Sample.no_marks)) Sample.fresh)) "grade"
  = [<["_id" := VObjectId 0%N]> (Grade.model_dump
       (Grade.mk Sample.id1 "Math" Grade.zero None))]
  ∧ coll (store_of (after (handle (POST_grades Sample.too_high)) Sample.fresh)) "grade"
    = [].
Proof. split; vm_compute; reflexivity. Qed.


(** The exact date 2024-02-01 is outside the range, and the three January
    records are listed all the same. *)
Example range_wins_run :
  Sample.dates_of (answer (list_attendance None (Some Sample.feb01)
                     (Some Sample.jan01) (Some Sample.jan31)) Sample.school)
  = [Some (VDate Sample.jan01); Some (VDate Sample.jan31);
     Some (VDate (PyDate.mk_date 2024 1 15))].
Proof. vm_compute. reflexivity. Qed.


(** January 2024 of the sample school: the record of 2024-02-01 is left
    out, and with a student given only that student's records remain. *)
Example january_run :
  Sample.dates_of (answer (list_attendance None None (Some Sample.jan01)
                     (Some Sample.jan31)) Sample.school)
  = [Some (VDate Sample.jan01); Some (VDate Sample.jan31);
     Some (VDate (PyDate.mk_date 2024 1 15))]
  ∧ Sample.dates_of (answer (list_attendance (Some Sample.id1) None
                       (Some Sample.jan01) (Some Sample.jan31)) Sample.school)
    = [Some (VDate Sample.jan01); Some (VDate Sample.jan31)]
  ∧ Sample.dates_of (answer (list_attendance (Some "") None None None)
                       Sample.school)
    = [Some (VDate Sample.jan01); Some (VDate Sample.jan31);
       Some (VDate Sample.feb01); Some (VDate (PyDate.mk_date 2024 1 15))].
Proof. repeat split; vm_compute; reflexivity. Qed.

Lemma sample_reachable (rs : list request) (w : World) :
  reachable w → reachable (Sample.run rs w).
Proof.
  revert w. induction rs as [|r rs IH]; intros w Hw; [done|].
  apply IH. by apply reachable_step.
Qed.



(** The sample school after the two marks: still four attendance records,
    one of them for the key, with the later status. *)
Example mark_twice_run :
  let w := after (mark_attendance (Attendance.mk Sample.id1 Sample.jan01 "Sakit"))
             (after (mark_attendance (Attendance.mk Sample.id1 Sample.jan01 "Izin"))
                Sample.school) in
  length (coll (store_of w) "attendance") = 4
  ∧ (λ d : doc, d !! "status")
      <$> List.filter (is_for Sample.id1 Sample.jan01) (coll (store_of w) "attendance")
    = [Some (VStr "Sakit")].
Proof. split; vm_compute; reflexivity. Qed.


(** A first mark appends a record with a null [created_at]; a second mark
    of the key changes the status and nothing else. *)
Example created_at_run :
  let p := Attendance.mk Sample.id2 Sample.feb01 "Hadir" in
  let p' := Attendance.mk Sample.id2 Sample.feb01 "Alfa" in
  let w1 := after (mark_attendance p) Sample.school in
  let w2 := after (mark_attendance p') w1 in
  created_at <$> coll (store_of Sample.school) "attendance"
  = [Some VNull; Some VNull; Some VNull; Some VNull]
  ∧ created_at <$> coll (store_of w1) "attendance"
    = [Some VNull; Some VNull; Some VNull; Some VNull; Some VNull]
  ∧ created_at <$> coll (store_of w2) "attendance"
    = [Some VNull; Some VNull; Some VNull; Some VNull; Some VNull].
Proof. repeat split; vm_compute; reflexivity. Qed.


(** The export of January 2024 of the sample school, and of a year with
    no record. *)
Example export_run_january :
  answer (export_attendance_csv (Some Sample.jan01) (Some Sample.jan31))
    Sample.school
  = Return (mk_Response
      (header_line
       +:+ plain_line "000000000000000000000001" Sample.id1 "2024-01-01" "Hadir"
       +:+ plain_line "000000000000000000000002" Sample.id1 "2024-01-31" "Sakit"
       +:+ plain_line "000000000000000000000004" Sample.id2 "2024-01-15" "Alfa")
      "text/csv" csv_headers)
  ∧ answer (export_attendance_csv (Some (PyDate.mk_date 2025 1 1)) None)
      Sample.school
    = Return (mk_Response header_line "text/csv" csv_headers).
Proof. split; vm_compute; reflexivity. Qed.

(** ** Instances of the further properties *)

Lemma enrolled_reachable : reachable Sample.enrolled.
Proof. apply sample_reachable, reachable_empty. Qed.

Lemma enrolled_db : db Sample.enrolled = Some (store_of Sample.enrolled).
Proof. vm_compute. reflexivity. Qed.


Lemma reads_change_nothing_witness :
  is_read GET_students = true
  ∧ after (handle GET_students) Sample.enrolled = Sample.enrolled.
Proof.
  split; [reflexivity|].
  exact (reads_change_nothing GET_students Sample.enrolled eq_refl).
Defined.


Lemma failure_changes_nothing_witness :
  is_delete_student (DELETE_agendas Sample.unused_id) = false
  ∧ answer (handle (DELETE_agendas Sample.unused_id)) Sample.enrolled
    = Raise (HTTPException 404 "Agenda not found")
  ∧ after (handle (DELETE_agendas Sample.unused_id)) Sample.enrolled
    = Sample.enrolled.
Proof.
  assert (H2 : answer (handle (DELETE_agendas Sample.unused_id)) Sample.enrolled
               = Raise (HTTPException 404 "Agenda not found"))
    by (vm_compute; reflexivity).
  split; [reflexivity|]. split; [exact H2|].
  exact (failure_changes_nothing (DELETE_agendas Sample.unused_id)
           Sample.enrolled _ eq_refl H2).
Defined.

Lemma create_then_list_witness :
  db Sample.enrolled = Some (store_of Sample.enrolled)
  ∧ answer (create_student (Student.mk "Budi" "5B")) Sample.enrolled
    = Return {["_id" := VStr (Oid.str (next_oid (store_of Sample.enrolled)))]}
  ∧ answer list_students
      (after (create_student (Student.mk "Budi" "5B")) Sample.enrolled)
    = Return ((serialize <$> coll (store_of Sample.enrolled) "student")
              ++ [<["_id" := VStr (Oid.str (next_oid (store_of Sample.enrolled)))]>
                    (Student.model_dump (Student.mk "Budi" "5B"))])%list.
Proof.
  split; [exact enrolled_db|].
  exact (proj1 (create_then_list Sample.enrolled (store_of Sample.enrolled)
                  enrolled_db) (Student.mk "Budi" "5B")).
Defined.

Lemma delete_by_id_witness :
  EAgenda ≠ EStudent
  ∧ db Sample.enrolled = Some (store_of Sample.enrolled)
  ∧ Oid.of_string Sample.gen4 = Some 4%N
  ∧ Exists (λ d : doc, d !! "_id" = Some (VObjectId 4%N))
      (coll (store_of Sample.enrolled) (collection_of EAgenda))
  ∧ ∃ s', handle (delete_request EAgenda Sample.gen4) Sample.enrolled
          = (Return (RObject {["deleted" := VBool true]}),
             mk_world (Some s') (SESSIONS Sample.enrolled))
          ∧ removed_one 4%N (coll (store_of Sample.enrolled) (collection_of EAgenda))
              (coll s' (collection_of EAgenda))
          ∧ ∀ name, name ≠ collection_of EAgenda →
                    coll s' name = coll (store_of Sample.enrolled) name.
Proof.
  assert (H1 : EAgenda ≠ EStudent) by discriminate.
  assert (H3 : Oid.of_string Sample.gen4 = Some 4%N) by (vm_compute; reflexivity).
  assert (H4 : Exists (λ d : doc, d !! "_id" = Some (VObjectId 4%N))
                 (coll (store_of Sample.enrolled) (collection_of EAgenda)))
    by (vm_compute; left; reflexivity).
  split; [exact H1|]. split; [exact enrolled_db|]. split; [exact H3|].
  split; [exact H4|].
  exact (delete_by_id EAgenda Sample.enrolled (store_of Sample.enrolled)
           Sample.gen4 4%N H1 enrolled_db H3 H4).
Defined.

Lemma delete_student_cascade_witness :
  db Sample.enrolled = Some (store_of Sample.enrolled)
  ∧ Oid.of_string Sample.gen0 = Some 0%N
  ∧ Exists (λ d : doc, d !! "_id" = Some (VObjectId 0%N))
      (coll (store_of Sample.enrolled) "student")
  ∧ ∃ s', delete_student Sample.gen0 Sample.enrolled
          = (Return {["deleted" := VBool true]},
             mk_world (Some s') (SESSIONS Sample.enrolled))
          ∧ removed_one 0%N (coll (store_of Sample.enrolled) "student")
              (coll s' "student")
          ∧ coll s' "attendance"
            = List.filter (λ d, negb (references Sample.gen0 d))
                (coll (store_of Sample.enrolled) "attendance")
          ∧ coll s' "grade"
            = List.filter (λ d, negb (references Sample.gen0 d))
                (coll (store_of Sample.enrolled) "grade")
          ∧ ∀ name, name ≠ "student" → name ≠ "attendance" → name ≠ "grade" →
                    coll s' name = coll (store_of Sample.enrolled) name.
Proof.
  assert (H2 : Oid.of_string Sample.gen0 = Some 0%N) by (vm_compute; reflexivity).
  assert (H3 : Exists (λ d : doc, d !! "_id" = Some (VObjectId 0%N))
                 (coll (store_of Sample.enrolled) "student"))
    by (vm_compute; left; reflexivity).
  split; [exact enrolled_db|]. split; [exact H2|]. split; [exact H3|].
  exact (delete_student_cascade Sample.enrolled (store_of Sample.enrolled)
           Sample.gen0 0%N enrolled_db H2 H3).
Defined.

(** The student delete on the sample: the student, the mark and the grade
    that name the student go; the mark of the other student stays. *)
Example cascade_run :
  let w := after (delete_student Sample.gen0) Sample.enrolled in
  coll (store_of w) "student" = []
  ∧ coll (store_of w) "grade" = []
  ∧ (λ d : doc, d !! "student_id") <$> coll (store_of w) "attendance"
    = [Some (VStr Sample.id1)]
  ∧ List.length (coll (store_of w) "agenda") = 1.
Proof. repeat split; vm_compute; reflexivity. Qed.

Lemma update_student_by_id_witness :
  db Sample.enrolled = Some (store_of Sample.enrolled)
  ∧ Oid.of_string Sample.gen0 = Some 0%N
  ∧ if existsb (has_id 0%N) (coll (store_of Sample.enrolled) "student")
    then ∃ s', update_student Sample.gen0 (Student.mk "Ana" "6B") Sample.enrolled
               = (Return {["updated" := VBool true]},
                  mk_world (Some s') (SESSIONS Sample.enrolled))
               ∧ updated_one 0%N (Student.model_dump (Student.mk "Ana" "6B"))
                   (coll (store_of Sample.enrolled) "student") (coll s' "student")
               ∧ ids_of (coll s' "student")
                 = ids_of (coll (store_of Sample.enrolled) "student")
               ∧ ∀ name, name ≠ "student" →
                         coll s' name = coll (store_of Sample.enrolled) name
    else update_student Sample.gen0 (Student.mk "Ana" "6B") Sample.enrolled
         = (Raise (HTTPException 404 "Student not found"), Sample.enrolled).
Proof.
  assert (H2 : Oid.of_string Sample.gen0 = Some 0%N) by (vm_compute; reflexivity).
  split; [exact enrolled_db|]. split; [exact H2|].
  exact (update_student_by_id Sample.enrolled (store_of Sample.enrolled)
           Sample.gen0 0%N (Student.mk "Ana" "6B") enrolled_db H2).
Defined.


(** The two updates on the sample: the fields change, the identifier
    stays. *)
Example update_run :
  let w := after (update_student Sample.gen0 (Student.mk "Ana" "6B"))
             Sample.enrolled in
  coll (store_of w) "student"
  = [<["_id" := VObjectId 0%N]> (Student.model_dump (Student.mk "Ana" "6B"))]
  ∧ answer (update_student Sample.unused_id (Student.mk "Ana" "6B"))
      Sample.enrolled
    = Raise (HTTPException 404 "Student not found").
Proof. split; vm_compute; reflexivity. Qed.

Lemma mark_touches_its_key_witness :
  db Sample.enrolled = Some (store_of Sample.enrolled)
  ∧ (let p := Sample.izin_0102 in
     let q d := negb (is_for (Attendance.student_id p) (Attendance.date p) d) in
     let s' := store_of (after (mark_attendance p) Sample.enrolled) in
     List.filter q (coll s' "attendance")
     = List.filter q (coll (store_of Sample.enrolled) "attendance")
     ∧ (∃ rest, ids_of (coll s' "attendance")
                = (ids_of (coll (store_of Sample.enrolled) "attendance") ++ rest)%list
                ∧ (List.length rest ≤ 1)%nat)
     ∧ ∀ name, name ≠ "attendance" →
               coll s' name = coll (store_of Sample.enrolled) name).
Proof.
  split; [exact enrolled_db|].
  exact (mark_touches_its_key Sample.izin_0102 Sample.enrolled
           (store_of Sample.enrolled) enrolled_db).
Defined.

Lemma reachable_ids_witness :
  reachable Sample.enrolled
  ∧ NoDup (ids_of (coll (store_of Sample.enrolled) "attendance"))
  ∧ Forall (λ d : doc, ∃ o, d !! "_id" = Some (VObjectId o))
      (coll (store_of Sample.enrolled) "attendance").
Proof.
  split; [exact enrolled_reachable|].
  exact (reachable_ids Sample.enrolled "attendance" enrolled_reachable).
Defined.

Lemma create_then_delete_witness :
  reachable Sample.enrolled
  ∧ db Sample.enrolled = Some (store_of Sample.enrolled)
  ∧ (next_oid (store_of Sample.enrolled) < 16 ^ 24)%N
  ∧ (let id := Oid.str (next_oid (store_of Sample.enrolled)) in
     let p := Agenda.mk "Trip" (PyDate.mk_date 2024 4 1) None in
     answer (create_agenda p) Sample.enrolled = Return {["_id" := VStr id]}
     ∧ answer (delete_agenda id) (after (create_agenda p) Sample.enrolled)
       = Return {["deleted" := VBool true]}
     ∧ ∀ name, coll (store_of (after (delete_agenda id)
                                 (after (create_agenda p) Sample.enrolled))) name
               = coll (store_of Sample.enrolled) name).
Proof.
  assert (H3 : (next_oid (store_of Sample.enrolled) < 16 ^ 24)%N)
    by (vm_compute; reflexivity).
  split; [exact enrolled_reachable|]. split; [exact enrolled_db|].
  split; [exact H3|].
  exact (proj1 (create_then_delete Sample.enrolled (store_of Sample.enrolled)
                  enrolled_reachable enrolled_db H3)
           (Agenda.mk "Trip" (PyDate.mk_date 2024 4 1) None)).
Defined.


Lemma cascade_runs_first_witness :
  db Sample.enrolled = Some (store_of Sample.enrolled)
  ∧ (let s' := store_of (after (delete_student "not-an-id") Sample.enrolled) in
     coll s' "attendance"
     = List.filter (λ d, negb (references "not-an-id" d))
         (coll (store_of Sample.enrolled) "attendance")
     ∧ coll s' "grade"
       = List.filter (λ d, negb (references "not-an-id" d))
           (coll (store_of Sample.enrolled) "grade")).
Proof.
  split; [exact enrolled_db|].
  exact (cascade_runs_first Sample.enrolled (store_of Sample.enrolled)
           "not-an-id" enrolled_db).
Defined.

(** A mark may name any text as its student; a student delete for that
    text fails on the identifier and has removed the mark all the same. *)
Example cascade_malformed_run :
  let w := Sample.run [POST_attendance
                         (Sample.attendance_body "not-an-id" "2024-01-01" "Hadir")]
             Sample.fresh in
  List.length (coll (store_of w) "attendance") = 1
  ∧ answer (delete_student "not-an-id") w = Raise InvalidId
  ∧ coll (store_of (after (delete_student "not-an-id") w)) "attendance" = [].
Proof. repeat split; vm_compute; reflexivity. Qed.



Lemma reachable_marks_well_formed_witness :
  reachable Sample.enrolled
  ∧ Forall well_formed_mark (coll (store_of Sample.enrolled) "attendance").
Proof.
  split; [exact enrolled_reachable|].
  exact (reachable_marks_well_formed Sample.enrolled enrolled_reachable).
Defined.
